(** * Geospatial lookup data (South Africa): geohelpers.py and main.py

    A shallow embedding of the helpers of [geohelpers.py] and of the driver
    [process_data] of [main.py], followed by the properties of the
    specification that were checked against them.

    Conventions of the embedding.
    - Python values that reach [int()] are values of [pyval]; exceptions are
      the constructors of [exn]; a computation that may raise has type
      [result A].
    - A pandas frame seen row by row is a list of index-labelled rows
      ([Frame R]); a frame seen column by column is a list of named columns
      ([DataFrame C]).
    - numpy float64 values are binary64 floats ([PrimFloat.float]).
    - Console output ([print]) is not modelled. *)

From Stdlib Require Import String Ascii DecimalString Floats.
From Stdlib Require Import ZArith PeanoNat Bool List Permutation Sorted Lia.
From Stdlib Require DecimalPos DecimalZ.
Import ListNotations.

Open Scope Z_scope.

(* ===================================================================== *)
(** * Python values, exceptions and the builtin [int] *)
(* ===================================================================== *)

Module Py.

(** The exceptions the modelled code can raise.  [OutOfFuel] is not a Python
    exception: it is the answer of a fuel-bounded recursion that ran out of
    fuel, and is shown never to occur. *)
Inductive exn : Type :=
| TypeError (msg : string)
| ValueError (msg : string)
| OverflowError (msg : string)
| KeyError (key : string)
| AttributeError (msg : string)
| FileExistsError (path : string)
| OutOfFuel.

Inductive result (A : Type) : Type :=
| Ok (a : A)
| Err (e : exn).
Arguments Ok {A} a.
Arguments Err {A} e.

Definition bind {A B : Type} (r : result A) (k : A -> result B) : result B :=
  match r with
  | Ok a => k a
  | Err e => Err e
  end.

(** [try: body except Exception: handler]. *)
Definition try_except {A : Type} (body : result A) (handler : exn -> result A)
  : result A :=
  match body with
  | Ok a => Ok a
  | Err e => handler e
  end.

Fixpoint mapM {A B : Type} (f : A -> result B) (l : list A) : result (list B) :=
  match l with
  | [] => Ok []
  | x :: xs =>
      bind (f x) (fun y => bind (mapM f xs) (fun ys => Ok (y :: ys)))
  end.

(** Code that also reads and writes a state [S] (a file system, a log of
    calls) and may raise. *)
Definition M (S A : Type) : Type := S -> S * result A.

Definition mret {S A : Type} (a : A) : M S A := fun s => (s, Ok a).

Definition mbind {S A B : Type} (c : M S A) (k : A -> M S B) : M S B :=
  fun s =>
    match c s with
    | (s', Ok a) => k a s'
    | (s', Err e) => (s', Err e)
    end.

Definition lift {S A : Type} (r : result A) : M S A := fun s => (s, r).

(** The values a caller can pass where the code calls [int(...)]. *)
Inductive pyval : Type :=
| PyNone
| PyBool (b : bool)
| PyInt (z : Z)
| PyFloat (f : float)
| PyStr (s : string)
| PyList (items : list Z).

(** ** float -> int, truncating toward zero *)

(** The integer part of a finite binary64 value; [None] on NaN and on the
    infinities. *)
Definition float_trunc (x : float) : option Z :=
  match Prim2SF x with
  | S754_zero _ => Some 0
  | S754_finite s m e =>
      let mag := if 0 <=? e then Z.pos m * 2 ^ e else Z.pos m / 2 ^ (- e) in
      Some (if s then - mag else mag)
  | S754_infinity _ => None
  | S754_nan => None
  end.

(** ** int(str): optional sign, decimal digits, single underscores between
    digits, surrounding whitespace ignored *)

Definition is_space (c : ascii) : bool :=
  let n := N.to_nat (N_of_ascii c) in
  ((9 <=? n)%nat && (n <=? 13)%nat) || ((28 <=? n)%nat && (n <=? 32)%nat).

Definition digit_val (c : ascii) : option Z :=
  let n := Z.of_N (N_of_ascii c) in
  if (48 <=? n) && (n <=? 57) then Some (n - 48) else None.

Fixpoint lstrip (s : list ascii) : list ascii :=
  match s with
  | c :: s' => if is_space c then lstrip s' else s
  | [] => []
  end.

Definition strip (s : list ascii) : list ascii :=
  rev (lstrip (rev (lstrip s))).

Fixpoint parse_digits (acc : Z) (after_digit : bool) (s : list ascii)
  : option Z :=
  match s with
  | [] => if after_digit then Some acc else None
  | c :: s' =>
      match digit_val c with
      | Some d => parse_digits (10 * acc + d) true s'
      | None =>
          if (Ascii.eqb c "_") && after_digit
          then parse_digits acc false s'
          else None
      end
  end.

Definition parse_int (s : string) : option Z :=
  match strip (list_ascii_of_string s) with
  | c :: s' =>
      if Ascii.eqb c "-" then option_map Z.opp (parse_digits 0 false s')
      else if Ascii.eqb c "+" then parse_digits 0 false s'
      else parse_digits 0 false (c :: s')
  | [] => None
  end.

(** ** The builtin [int] *)
Definition py_int (v : pyval) : result Z :=
  match v with
  | PyNone =>
      Err (TypeError "int() argument must be a string, a bytes-like object or a number, not 'NoneType'")
  | PyBool b => Ok (if b then 1 else 0)
  | PyInt z => Ok z
  | PyFloat f =>
      match float_trunc f with
      | Some z => Ok z
      | None =>
          if PrimFloat.is_nan f
          then Err (ValueError "cannot convert float NaN to integer")
          else Err (OverflowError "cannot convert float infinity to integer")
      end
  | PyStr s =>
      match parse_int s with
      | Some z => Ok z
      | None => Err (ValueError "invalid literal for int() with base 10")
      end
  | PyList _ =>
      Err (TypeError "int() argument must be a string, a bytes-like object or a number, not 'list'")
  end.

(** [str(n)] for an integer [n]. *)
Definition py_str (z : Z) : string := NilZero.string_of_int (Z.to_int z).

(** [range(n)] *)
Definition range (n : nat) : list Z := map Z.of_nat (seq 0 n).

End Py.

Export Py.

Declare Scope py_scope.
Delimit Scope py_scope with py.
Notation "x <- c ;; k" := (bind c (fun x => k))
  (at level 61, c at next level, right associativity) : py_scope.
Notation "x <~ c ;; k" := (mbind c (fun x => k))
  (at level 61, c at next level, right associativity) : py_scope.
Open Scope py_scope.


(* ===================================================================== *)
(** * The numpy and pandas operations the helpers rely on *)
(* ===================================================================== *)

Module Np.

(** ** Arrays *)

Fixpoint split_sections {A : Type} (sizes : list nat) (ary : list A)
  : list (list A) :=
  match sizes with
  | [] => []
  | n :: ns => firstn n ary :: split_sections ns (skipn n ary)
  end.

(** [np.array_split(ary, sections)]: [len % sections] sub-arrays of size
    [len // sections + 1] followed by sub-arrays of size [len // sections]. *)
Definition array_split {A : Type} (ary : list A) (sections : nat)
  : result (list (list A)) :=
  if (sections =? 0)%nat
  then Err (ValueError "number sections must be larger than 0.")
  else
    let Ntotal := length ary in
    let Neach := (Ntotal / sections)%nat in
    let extras := (Ntotal mod sections)%nat in
    Ok (split_sections
          (repeat (S Neach) extras ++ repeat Neach (sections - extras)) ary).

(** [np.meshgrid(x, y)] with the default ['xy'] indexing: two matrices of
    [len y] rows and [len x] columns, [X[i][j] = x[j]] and [Y[i][j] = y[i]]. *)
Definition meshgrid {A : Type} (x y : list A)
  : list (list A) * list (list A) :=
  (map (fun _ => x) y, map (fun yi => map (fun _ => yi) x) y).

(** [np.stack([X, Y], axis=-1)] on two matrices of the same shape. *)
Fixpoint stack_last {A : Type} (X Y : list (list A)) : list (list (A * A)) :=
  match X, Y with
  | xr :: X', yr :: Y' => combine xr yr :: stack_last X' Y'
  | _, _ => []
  end.

(** [.reshape(-1, 2)] of the stacked array: its rows in C order. *)
Definition reshape_rows {A : Type} (m : list (list (A * A))) : list (A * A) :=
  concat m.

(** ** float64 arithmetic *)

Definition two52 : float := Eval vm_compute in Z.ldexp 1 52.

(** [np.rint]: round to the nearest integer, ties to even. *)
Definition rint (x : float) : float :=
  if (PrimFloat.abs x <? two52)%float then
    let r := ((PrimFloat.abs x + two52) - two52)%float in
    if PrimFloat.get_sign x then (- r)%float else r
  else x.

(** The float64 nearest to an integer. *)
Definition float_of_Z (z : Z) : float :=
  SF2Prim (binary_normalize prec emax z 0 false).

(** numpy's table of powers of ten (exact up to [1e22]; beyond, the nearest
    float64). *)
Definition power_of_ten (n : Z) : float := float_of_Z (10 ^ n).

(** [np.round(x, decimals)]: scale, [rint], scale back. *)
Definition round (x : float) (decimals : Z) : float :=
  if decimals =? 0 then rint x
  else if 0 <? decimals
       then (rint (x * power_of_ten decimals) / power_of_ten decimals)%float
       else (rint (x / power_of_ten (- decimals)) * power_of_ten (- decimals))%float.

Fixpoint ilog10 (fuel : nat) (a : Z) : Z :=
  match fuel with
  | O => 0
  | S fuel' => if a <? 10 then 0 else 1 + ilog10 fuel' (a / 10)
  end.

(** [int(5 - np.log10(a))] for a Python integer [a].  [np.log10] is exact on
    the powers of ten; between two of them [5 - log10 a] lies strictly
    between two integers and [int] truncates it toward zero.  [log10 0] is
    [-inf] and the logarithm of a negative number is NaN. *)
Definition int_5_minus_log10 (a : Z) : result Z :=
  if a <? 0 then Err (ValueError "cannot convert float NaN to integer")
  else if a =? 0
       then Err (OverflowError "cannot convert float infinity to integer")
       else
         let L := ilog10 (Z.to_nat (Z.log2 a) + 1) a in
         Ok (if a =? 10 ^ L then 5 - L
             else if L <=? 4 then 4 - L else 5 - L).

End Np.

Module Pd.

(** A frame, row by row: each row carries its index label. *)
Definition Frame (R : Type) : Type := list (Z * R).

(** [pd.DataFrame(rows)]: a fresh [RangeIndex]. *)
Definition DataFrame_of_rows {R : Type} (rows : list R) : Frame R :=
  combine (range (length rows)) rows.

(** [df.reset_index(drop=True)] *)
Definition reset_index {R : Type} (df : Frame R) : Frame R :=
  DataFrame_of_rows (map snd df).

(** [pd.concat(objs)]: the frames one after the other, labels kept; an empty
    list of frames is refused. *)
Definition concat {R : Type} (objs : list (Frame R)) : result (Frame R) :=
  match objs with
  | [] => Err (ValueError "No objects to concatenate")
  | _ => Ok (List.concat objs)
  end.

Fixpoint insert_unique (k : Z) (ks : list Z) : list Z :=
  match ks with
  | [] => [k]
  | x :: xs =>
      if k <? x then k :: x :: xs
      else if k =? x then x :: xs
      else x :: insert_unique k xs
  end.

(** The distinct group keys, ascending. *)
Definition sort_unique (ks : list Z) : list Z :=
  fold_right insert_unique [] ks.

(** The rows whose key is [k], in their original order. *)
Definition group_rows {R : Type} (keys : list Z) (df : list R) (k : Z)
  : list R :=
  map snd (filter (fun kr => fst kr =? k) (combine keys df)).

(** Iterating [df.groupby(keys)], [keys] an array with one key per row:
    the groups by ascending key, each with its rows in their original
    order. *)
Definition groupby {R : Type} (df : list R) (keys : list Z)
  : list (Z * list R) :=
  map (fun k => (k, group_rows keys df k)) (sort_unique keys).

(** [series.astype(int)] on one float64 cell: pandas refuses NaN and the
    infinities; the cast truncates toward zero, and a value that does not
    fit 64 bits becomes the "integer indefinite" value of the x86 cast. *)
Definition astype_int (x : float) : result Z :=
  match float_trunc x with
  | Some z =>
      Ok (if (- 2 ^ 63 <=? z) && (z <? 2 ^ 63) then z else - 2 ^ 63)
  | None =>
      Err (ValueError "Cannot convert non-finite values (NA or inf) to integer")
  end.

End Pd.

Export Pd (Frame).

(* ===================================================================== *)
(** * geohelpers.py *)
(* ===================================================================== *)

Module GeoHelpers.

(** ** [_check_chunksize] *)

(** Only [TypeError] is caught; any other exception of [int] propagates. *)
Definition _check_chunksize (chunksize : pyval) (df_size : Z) : result Z :=
  match py_int chunksize with
  | Ok c => Ok c
  | Err (TypeError _) => Ok (Z.min (Z.max (df_size / 50) 5000) 60000)
  | Err e => Err e
  end.

(** ** [_chunker] *)

(** [chunksize] is [None] or an integer; [not chunksize] holds for [None]
    and for [0].  Rows are grouped by position, [np.arange(n) // chunksize]. *)
Definition _chunker {R : Type} (df : Frame R) (chunksize : option Z)
  : list (Frame R) :=
  match chunksize with
  | None => [df]
  | Some c =>
      if c =? 0 then [df]
      else
        map snd
          (Pd.groupby df (map (fun i => Z.of_nat i / c) (seq 0 (length df))))
  end.

(** ** The grid *)

Section Grid.

Variable A : Type.

(** [cartesian_product(lats, longs)]:
    [np.stack(np.meshgrid(lats, longs), axis=-1).reshape(-1, 2)]. *)
Definition cartesian_product (lats longs : list A) : list (A * A) :=
  let '(X, Y) := Np.meshgrid lats longs in
  Np.reshape_rows (Np.stack_last X Y).

(** [_generate_smaller_grid], the recursion bounded by [fuel]. *)
Fixpoint _generate_smaller_grid_fuel (fuel : nat) (lats longs : list A)
  (accuracy_m : Z) (verbose : bool) {struct fuel}
  : result (Frame (A * A)) :=
  match fuel with
  | O => Err OutOfFuel
  | S fuel' =>
      let mlat := length lats in
      let mlong := length longs in
      if (1500 <=? Nat.max mlat mlong)%nat then
        dfs <-
          (if (mlong <? mlat)%nat then
             chunks <- Np.array_split lats (mlat / 100)%nat ;;
             mapM (fun lat =>
                     _generate_smaller_grid_fuel fuel' lat longs
                       accuracy_m verbose) chunks
           else
             chunks <- Np.array_split longs (mlong / 100)%nat ;;
             mapM (fun lon =>
                     _generate_smaller_grid_fuel fuel' lats lon
                       accuracy_m verbose) chunks) ;;
        Pd.concat dfs
      else
        Ok (Pd.DataFrame_of_rows (cartesian_product lats longs))
  end.

Definition _generate_smaller_grid (lats longs : list A) (accuracy_m : Z)
  (verbose : bool) : result (Frame (A * A)) :=
  _generate_smaller_grid_fuel (S (length lats + length longs)) lats longs
    accuracy_m verbose.

(** The float64 operations of [generate_grid]: [np.min] and [np.max] of a
    (min, max) pair, the true division [accuracy_m/100000] and
    [np.arange(start, stop, step)]. *)
Variable np_min np_max : A * A -> A.
Variable true_divide : Z -> Z -> A.
Variable np_arange : A -> A -> A -> list A.

Definition accuracy_values : list Z := map (fun x => 10 ^ x) (range 6).

(** [generate_grid]: the validation of [accuracy_m], then the grid. *)
Definition generate_grid (lats longs : A * A) (accuracy_m : pyval)
  (verbose : bool) : result (Frame (A * A)) :=
  accuracy_m <-
    try_except
      (accuracy_m <- py_int accuracy_m ;;
       if negb (existsb (Z.eqb accuracy_m) accuracy_values)
       then Err (ValueError "accuracy_m not in (1,10,100,1000,10000,100000)")
       else Ok accuracy_m)
      (fun _ =>
         Err (ValueError
                "accuracy_m must be one of these values: (1,10,100,1000,10000,100000)")) ;;
  let steps := true_divide accuracy_m 100000 in
  let lats := np_arange (np_min lats) (np_max lats) steps in
  let longs := np_arange (np_min longs) (np_max longs) steps in
  ret <- _generate_smaller_grid lats longs accuracy_m verbose ;;
  Ok (Pd.reset_index ret).

End Grid.

Arguments cartesian_product {A} lats longs.
Arguments _generate_smaller_grid_fuel {A} fuel lats longs accuracy_m verbose.
Arguments _generate_smaller_grid {A} lats longs accuracy_m verbose.
Arguments generate_grid {A} np_min np_max true_divide np_arange
  lats longs accuracy_m verbose.

(** ** The geokey *)

(** A point record: the coordinates, the key and geometry cells once they
    have been computed, and the other attributes. *)
Record point_row (T : Type) : Type := mk_point_row {
  latitude : float;
  longitude : float;
  geokey : option string;
  geometry : option (float * float);
  attrs : T
}.
Arguments mk_point_row {T}.
Arguments latitude {T}.
Arguments longitude {T}.
Arguments geokey {T}.
Arguments geometry {T}.
Arguments attrs {T}.

(** The key cell of one row, from its rounded coordinates:
    [(lat*100000).astype(int).astype(str) + ';' + (long*100000)...]. *)
Definition geokey_of (lat long : float) : result string :=
  ilat <- Pd.astype_int (lat * 100000)%float ;;
  ilong <- Pd.astype_int (long * 100000)%float ;;
  Ok (py_str ilat ++ ";" ++ py_str ilong)%string.

Definition generate_key_row {T : Type} (round_level : Z) (r : point_row T)
  : result (point_row T) :=
  let lat := Np.round (latitude r) round_level in
  let long := Np.round (longitude r) round_level in
  key <- geokey_of lat long ;;
  Ok (mk_point_row lat long (Some key) (geometry r) (attrs r)).

Definition generate_key {T : Type} (df : Frame (point_row T)) (accuracy_m : Z)
  : result (Frame (point_row T)) :=
  round_level <- Np.int_5_minus_log10 accuracy_m ;;
  mapM (fun ir => r <- generate_key_row round_level (snd ir) ;; Ok (fst ir, r))
       df.

(** ** [generate_points_from_coordinates] *)

Definition points_from_xy {T : Type} (df_chunk : Frame (point_row T))
  : Frame (point_row T) :=
  map (fun ir =>
         let r := snd ir in
         (fst ir,
          mk_point_row (latitude r) (longitude r) (geokey r)
            (Some (longitude r, latitude r)) (attrs r)))
      df_chunk.

Definition generate_points_from_coordinates {T : Type}
  (df : Frame (point_row T)) (chunksize : pyval)
  : result (Frame (point_row T)) :=
  chunksize <- _check_chunksize chunksize (Z.of_nat (length df)) ;;
  Pd.concat (map points_from_xy (_chunker df (Some chunksize))).

(** ** The join *)

Section Join.

(** Point rows, polygon rows, and the containment test of the geometry
    library. *)
Variables P G : Type.
Variable within : P -> G -> bool.

(** A joined row: the point's attributes, then the label of the polygon
    ([index_geometries]) and the polygon's attributes. *)
Definition joined_row : Type := (P * (Z * G))%type.

(** [gpd.sjoin(points, geometries, how='inner', op='within')]: for each
    point, in order, one row per polygon that contains it; the row keeps
    the label of the point. *)
Definition do_join (points : Frame P) (geometries : Frame G)
  : Frame joined_row :=
  flat_map
    (fun ip =>
       map (fun jg => (fst ip, (snd ip, jg)))
           (filter (fun jg => within (snd ip) (snd jg)) geometries))
    points.

(** The state of the loop of [locate_points]. *)
Record locate_state : Type := mk_locate_state {
  results : list (Frame joined_row);
  steps : Z;
  n : Z
}.

Definition locate_step (geometries : Frame G) (st : locate_state)
  (small_points : Frame P) : locate_state :=
  let small_join := do_join small_points geometries in
  mk_locate_state (results st ++ [small_join]) (steps st + 1)
    (n st + Z.of_nat (length small_points)).

Definition locate_points (points : Frame P) (geometries : Frame G)
  (chunksize : pyval) (verbose : bool) : result (Frame joined_row) :=
  chunksize <- _check_chunksize chunksize (Z.of_nat (length points)) ;;
  let st :=
    fold_left (locate_step geometries) (_chunker points (Some chunksize))
      (mk_locate_state [] 0 0) in
  ret <- Pd.concat (results st) ;;
  Ok (Pd.reset_index ret).

End Join.

Arguments do_join {P G} within points geometries.
Arguments locate_points {P G} within points geometries chunksize verbose.
Arguments locate_step {P G} within geometries st small_points.
Arguments results {P G}.
Arguments steps {P G}.
Arguments n {P G}.
Arguments mk_locate_state {P G}.

(** ** [process_dataframe] *)

Section Process.

Variables T G : Type.
(** Point-in-polygon, on the point geometry [(x, y) = (long, lat)]. *)
Variable contains : G -> float * float -> bool.

Definition row_within (r : point_row T) (g : G) : bool :=
  match geometry r with
  | Some pt => contains g pt
  | None => false
  end.

Definition process_dataframe (df : Frame (point_row T))
  (geometries : Frame G) (accuracy_m : Z) (chunksize : pyval)
  (verbose : bool) : result (Frame (joined_row (point_row T) G)) :=
  chunksize <- _check_chunksize chunksize (Z.of_nat (length df)) ;;
  df <- generate_key df accuracy_m ;;
  df <- generate_points_from_coordinates df (PyInt chunksize) ;;
  locate_points row_within df geometries (PyInt chunksize) verbose.

End Process.

Arguments process_dataframe {T G} contains df geometries accuracy_m
  chunksize verbose.

(** ** [save_data] *)

Section Save.

(** The content of a column. *)
Variable C : Type.

(** A frame, column by column, in column order. *)
Definition DataFrame : Type := list (string * C).

(** The [columns] argument: [None], a dict (its items in insertion order),
    a list, or another iterable of names such as a tuple. *)
Inductive columns_arg : Type :=
| ColumnsNone
| ColumnsDict (items : list (string * string))
| ColumnsList (names : list string)
| ColumnsTuple (names : list string).

Definition truthy (columns : columns_arg) : bool :=
  match columns with
  | ColumnsNone => false
  | ColumnsDict items => negb (Nat.eqb (length items) 0)
  | ColumnsList names | ColumnsTuple names =>
      negb (Nat.eqb (length names) 0)
  end.

Definition isinstance_dict (columns : columns_arg) : bool :=
  match columns with ColumnsDict _ => true | _ => false end.

Definition isinstance_list (columns : columns_arg) : bool :=
  match columns with ColumnsList _ => true | _ => false end.

(** [list(columns)] and [columns.keys()] *)
Definition names_of (columns : columns_arg) : list string :=
  match columns with
  | ColumnsNone => []
  | ColumnsDict items => map fst items
  | ColumnsList names | ColumnsTuple names => names
  end.

Definition dict_items (columns : columns_arg) : list (string * string) :=
  match columns with ColumnsDict items => items | _ => [] end.

(** [d.get(k, k)] *)
Fixpoint dict_get (d : list (string * string)) (k : string) : string :=
  match d with
  | [] => k
  | (k', v) :: d' => if String.eqb k' k then v else dict_get d' k
  end.

(** [df[names]]: for each name, in order, the columns that carry it; a
    name that labels no column is a [KeyError]. *)
Fixpoint getitem (df : DataFrame) (names : list string) : result DataFrame :=
  match names with
  | [] => Ok []
  | name :: names' =>
      match filter (fun c => String.eqb (fst c) name) df with
      | [] => Err (KeyError name)
      | cols => rest <- getitem df names' ;; Ok (cols ++ rest)
      end
  end.

(** The content of the first column labelled [name]. *)
Definition column (df : DataFrame) (name : string) : option C :=
  option_map snd (find (fun c => String.eqb (fst c) name) df).

(** [df.rename(columns=mapper)] *)
Definition rename (df : DataFrame) (mapper : list (string * string))
  : DataFrame :=
  map (fun c => (dict_get mapper (fst c), snd c)) df.

(** The part of the file system [save_data] touches: the directories that
    exist and the frames written, latest first.  The only failure of the
    file system that is modelled is the one the code handles, a directory
    that exists already. *)
Record filesystem : Type := mk_filesystem {
  dirs : list string;
  files : list (string * DataFrame)
}.

Definition os_mkdir (directory : string) : M filesystem unit :=
  fun fs =>
    if existsb (String.eqb directory) (dirs fs)
    then (fs, Err (FileExistsError directory))
    else (mk_filesystem (directory :: dirs fs) (files fs), Ok tt).

Definition ends_with_slash (s : string) : bool :=
  match rev (list_ascii_of_string s) with
  | c :: _ => Ascii.eqb c "/"
  | [] => false
  end.

Definition starts_with_slash (s : string) : bool :=
  match s with
  | String c _ => Ascii.eqb c "/"
  | EmptyString => false
  end.

(** [os.path.join(directory, filename)] (posix) *)
Definition os_path_join (directory filename : string) : string :=
  if starts_with_slash filename then filename
  else if String.eqb directory "" || ends_with_slash directory
       then (directory ++ filename)%string
       else (directory ++ "/" ++ filename)%string.

(** [df.to_json(path, orient='records')] *)
Definition to_json (df : DataFrame) (path : string) : M filesystem unit :=
  fun fs => (mk_filesystem (dirs fs) ((path, df) :: files fs), Ok tt).

(** The frame last written at a path. *)
Definition read_file (fs : filesystem) (path : string) : option DataFrame :=
  option_map snd (find (fun f => String.eqb (fst f) path) (files fs)).

Definition save_data (df : DataFrame) (filename directory : string)
  (columns : columns_arg) : M filesystem DataFrame :=
  df <~ lift
    (if truthy columns then
       if negb (isinstance_dict columns) then
         if negb (isinstance_list columns)
         then getitem df (names_of columns)
         else Ok df
       else
         df <- getitem df (names_of columns) ;;
         Ok (rename df (dict_items columns))
     else Ok df) ;;
  _ <~ (fun fs =>
          match os_mkdir directory fs with
          | (fs', Err (FileExistsError _)) => (fs', Ok tt)
          | r => r
          end) ;;
  let full_pathname := os_path_join directory filename in
  _ <~ to_json df full_pathname ;;
  mret df.

End Save.

Arguments column {C} df name.
Arguments getitem {C} df names.
Arguments rename {C} df mapper.
Arguments mk_filesystem {C} dirs files.
Arguments dirs {C}.
Arguments files {C}.
Arguments read_file {C} fs path.
Arguments save_data {C} df filename directory columns.

(** The names bound at the top level of the module: its imports and its
    functions. *)
Definition namespace : list string :=
  [ "np"; "pd"; "gpd"; "os";
    "_check_chunksize"; "cartesian_product"; "generate_key";
    "generate_points_from_coordinates"; "_generate_smaller_grid";
    "generate_grid"; "_chunker"; "do_join"; "locate_points"; "save_data";
    "process_dataframe" ]%string.

End GeoHelpers.

(* ===================================================================== *)
(** * main.py *)
(* ===================================================================== *)

Module Main.

Import GeoHelpers.

Section Pipeline.

(** The attributes of a point besides its coordinates, the polygon rows,
    the content of a column. *)
Variables T G C : Type.

(** The geometry library and float64 operations used by the helpers. *)
Variable contains : G -> float * float -> bool.
Variable np_min np_max : float * float -> float.
Variable true_divide : Z -> Z -> float.
Variable np_arange : float -> float -> float -> list float.

(** The two views of a pandas frame: the rows the join works on and the
    named columns [save_data] works on. *)
Variable no_attrs : T.
Variable rows_of : DataFrame C -> Frame (point_row T).
Variable columns_of : Frame (joined_row (point_row T) G) -> DataFrame C.

(** pandas operations of [main.py] that the helpers do not define. *)
Variable drop_columns : DataFrame C -> list string -> DataFrame C.
Variable drop_duplicates : DataFrame C -> DataFrame C.
Variable fillna_from : DataFrame C -> string -> string -> DataFrame C.
Variable dropna : DataFrame C -> DataFrame C.
Variable rows_where_eq : DataFrame C -> string -> string -> DataFrame C.

(** [load_raw_data()]: the three input files, or the exception of the
    reader. *)
Variable load_raw_data : result (Frame G * DataFrame C * DataFrame C).

(** What a run leaves behind: the functions it entered, in order, and the
    files it wrote. *)
Record run_state : Type := mk_run_state {
  calls : list string;
  disk : filesystem C
}.

Definition enter (name : string) : M run_state unit :=
  fun st => (mk_run_state (calls st ++ [name]) (disk st), Ok tt).

(** The attribute lookup [gh.<name>]. *)
Definition gh_getattr (name : string) : M run_state unit :=
  fun st =>
    if existsb (String.eqb name) namespace then (st, Ok tt)
    else
      (st,
       Err (AttributeError
              ("module 'geohelpers' has no attribute '" ++ name ++ "'")%string)).

(** The call [gh.<name>(...)] of a function whose body is [body]. *)
Definition gh_call {X : Type} (name : string) (body : M run_state X)
  : M run_state X :=
  _ <~ gh_getattr name ;; _ <~ enter name ;; body.

Definition on_disk {X : Type} (c : M (filesystem C) X) : M run_state X :=
  fun st =>
    let '(fs, r) := c (disk st) in (mk_run_state (calls st) fs, r).

Definition grid_rows (grid : Frame (float * float)) : Frame (point_row T) :=
  map (fun ir =>
         (fst ir, mk_point_row (fst (snd ir)) (snd (snd ir)) None None
                    no_attrs))
      grid.

Definition extract_names_datasets (located_geonames : DataFrame C)
  : DataFrame C * DataFrame C * DataFrame C * DataFrame C :=
  let lg := located_geonames in
  let provinces := rows_where_eq lg "feature_code" "ADM1" in
  let districts := rows_where_eq lg "feature_code" "ADM2" in
  let towns := rows_where_eq lg "feature_code" "ADM3" in
  let suburbs := rows_where_eq lg "feature_class" "P" in
  (provinces, districts, towns, suburbs).

Definition grid_cols : list (string * string) :=
  [ ("geokey", "geokey"); ("latitude", "latitude");
    ("longitude", "longitude"); ("WardID", "ward_id");
    ("WardNumber", "ward_number"); ("Shape_Length", "ward_length");
    ("Shape_Area", "ward_area");
    ("LocalMunicipalityName", "local_municipality");
    ("DistrictMunicipalityCode", "district_minicipal_code");
    ("DistrictMunicipalityName", "district_municipality");
    ("ProvinceName", "province_code"); ("ProvinceCode", "province_name")
  ]%string.

Definition geonames_cols : list (string * string) :=
  [ ("geonameid", "geoname_id"); ("WardID", "ward_id");
    ("geokey", "geokey"); ("latitude", "latitude");
    ("longitude", "longitude"); ("name", "name");
    ("feature_class", "feature_class"); ("feature_code", "feature_code");
    ("population", "population"); ("desc_short", "desc_short");
    ("desc_long", "desc_long") ]%string.

Definition postal_code_cols : list (string * string) :=
  [ ("geokey", "geokey"); ("WardID", "ward_id");
    ("postal_code", "postal_code"); ("place_name", "place_name");
    ("latitude", "latitude"); ("longitude", "longitude") ]%string.

(** [process_data(accuracy_m, verbose)], statement by statement. *)
Definition process_data (accuracy_m : Z) (verbose : bool)
  : M run_state (DataFrame C * DataFrame C * DataFrame C) :=
  _ <~ enter "load_raw_data" ;;
  raw <~ lift load_raw_data ;;
  let '(geometries, geonames, postal_codes) := raw in
  points_grid <~
    gh_call "generate_grid"
      (lift (generate_grid np_min np_max true_divide np_arange
               ((-35)%float, (-22)%float) (16%float, 33%float)
               (PyInt accuracy_m) verbose)) ;;
  (* gh.check_grid(points_grid): the lookup comes first *)
  _ <~ gh_getattr "check_grid" ;;
  located_grid <~
    gh_call "process_dataframe"
      (lift (r <- process_dataframe contains (grid_rows points_grid)
                    geometries accuracy_m PyNone verbose ;;
             Ok (columns_of r))) ;;
  _ <~ gh_getattr "check_grid" ;;
  grid <~
    gh_call "save_data"
      (on_disk (save_data located_grid "located_grid.json.gz"
                  "processed_data" (ColumnsDict grid_cols))) ;;
  let wards :=
    drop_duplicates
      (drop_columns grid ["geokey"; "latitude"; "longitude"]%string) in
  grid <~
    lift (g <- getitem grid
                 ["geokey"; "ward_id"; "latitude"; "longitude"]%string ;;
          Ok (drop_duplicates g)) ;;
  located_geonames <~
    gh_call "process_dataframe"
      (lift (r <- process_dataframe contains (rows_of geonames)
                    geometries accuracy_m PyNone verbose ;;
             Ok (columns_of r))) ;;
  located_geonames <~ lift (getitem located_geonames (map fst geonames_cols)) ;;
  let located_geonames :=
    dropna (fillna_from located_geonames "desc_long" "desc_short") in
  loc_geo <~
    gh_call "save_data"
      (on_disk (save_data located_geonames "located_geonames.json.gz"
                  "processed_data" (ColumnsDict geonames_cols))) ;;
  _ <~ enter "extract_names_datasets" ;;
  let '(provinces, districts, towns, suburbs) :=
    extract_names_datasets loc_geo in
  located_postal_codes <~
    gh_call "process_dataframe"
      (lift (r <- process_dataframe contains (rows_of postal_codes)
                    geometries accuracy_m PyNone verbose ;;
             Ok (columns_of r))) ;;
  (* save_data has no parameter skip_checks: the call is refused *)
  _ <~ gh_getattr "save_data" ;;
  postal_codes_dataset <~
    lift (Err (TypeError
                 "save_data() got an unexpected keyword argument 'skip_checks'")
          : result (DataFrame C)) ;;
  _ <~ gh_call "save_data"
        (on_disk (save_data postal_codes_dataset "postal_codes.json.gz"
                    "datasets" ColumnsNone)) ;;
  _ <~ gh_call "save_data"
        (on_disk (save_data provinces "provinces.json.gz" "datasets"
                    ColumnsNone)) ;;
  _ <~ gh_call "save_data"
        (on_disk (save_data districts "districts.json.gz" "datasets"
                    ColumnsNone)) ;;
  _ <~ gh_call "save_data"
        (on_disk (save_data towns "towns.json.gz" "datasets" ColumnsNone)) ;;
  _ <~ gh_call "save_data"
        (on_disk (save_data suburbs "suburbs.json.gz" "datasets"
                    ColumnsNone)) ;;
  _ <~ gh_call "save_data"
        (on_disk (save_data wards "wards.json.gz" "datasets" ColumnsNone)) ;;
  _ <~ gh_call "save_data"
        (on_disk (save_data grid "grid.json.gz" "datasets" ColumnsNone)) ;;
  mret (located_grid, located_geonames, located_postal_codes).

End Pipeline.

End Main.

(* ===================================================================== *)
(** * Reference definitions, in the words of the specification *)
(* ===================================================================== *)

Module Spec.

(** Contiguous partitions of at most [c] rows each, in row order. *)
Fixpoint contiguous_chunks {R : Type} (fuel c : nat) (df : list R)
  : list (list R) :=
  match fuel with
  | O => []
  | S fuel' =>
      match df with
      | [] => []
      | _ => firstn c df :: contiguous_chunks fuel' c (skipn c df)
      end
  end.

(** C-style nested iteration over latitude (outer) then longitude (inner). *)
Definition lat_then_long {A : Type} (lats longs : list A) : list (A * A) :=
  flat_map (fun lat => map (fun long => (lat, long)) longs) lats.

(** Nested iteration over longitude (outer) then latitude (inner). *)
Definition long_then_lat {A : Type} (lats longs : list A) : list (A * A) :=
  flat_map (fun long => map (fun lat => (lat, long)) lats) longs.

(** The adaptive default of the chunk size. *)
Definition default_chunksize (total_rows : Z) : Z :=
  Z.min (Z.max (total_rows / 50) 5000) 60000.

End Spec.

(* ===================================================================== *)
(** * Example data *)
(* ===================================================================== *)

Module Examples.

Import GeoHelpers.

(** Points on a line and intervals as polygons. *)
Definition in_interval (p : Z) (g : Z * Z) : bool :=
  (fst g <=? p) && (p <=? snd g).

Definition line_points : Frame Z := Pd.DataFrame_of_rows [1; 5; 12; 20].

Definition intervals : Frame (Z * Z) := Pd.DataFrame_of_rows [(0, 6); (4, 13)].

(** A grid on the integers: unit steps from the smaller to the larger bound
    of a pair. *)
Definition pair_min (p : Z * Z) : Z := Z.min (fst p) (snd p).
Definition pair_max (p : Z * Z) : Z := Z.max (fst p) (snd p).
Definition int_step (a b : Z) : Z := 1.
Definition int_arange (start stop step : Z) : list Z :=
  map (fun i => start + Z.of_nat i * step) (seq 0 (Z.to_nat (stop - start))).

(** Two frames with integer cells, an empty disk, and the mapping of the
    save-with-column-mapping scenario. *)
Definition sources_only : DataFrame (list Z) :=
  [ ("source_col1", [1; 2]); ("source_col2", [3; 4]) ]%string.

Definition sources_and_targets : DataFrame (list Z) :=
  [ ("a", [10; 20]); ("b", [30; 40]);
    ("source_col1", [1; 2]); ("source_col2", [3; 4]) ]%string.

Definition empty_disk : filesystem (list Z) := mk_filesystem [] [].

Definition scenario_mapping : list (string * string) :=
  [ ("a", "source_col1"); ("b", "source_col2") ]%string.

Definition reversed_mapping : list (string * string) :=
  [ ("source_col1", "a"); ("source_col2", "b") ]%string.

(** Two points of Cape Town, one hundred-thousandth of a degree apart. *)
Definition cape_a : point_row unit :=
  mk_point_row (-0x1.0f5c38b04ab60p+5)%float 0x1.26b851eb851ecp+4%float
    None None tt.

Definition cape_b : point_row unit :=
  mk_point_row (-0x1.0f5c33721d53dp+5)%float 0x1.26b851eb851ecp+4%float
    None None tt.

(** float64 samplings for a run of the pipeline on an empty data set. *)
Definition float_min (p : float * float) : float :=
  if (fst p <? snd p)%float then fst p else snd p.
Definition float_max (p : float * float) : float :=
  if (fst p <? snd p)%float then snd p else fst p.
Definition float_div (a b : Z) : float :=
  (Np.float_of_Z a / Np.float_of_Z b)%float.
Definition float_arange (start stop step : float) : list float :=
  let q := ((stop - start) / step)%float in
  match float_trunc q with
  | Some t =>
      let len := if (Np.float_of_Z t <? q)%float then t + 1 else t in
      map (fun i => (start + Np.float_of_Z i * step)%float)
          (range (Z.to_nat len))
  | None => []
  end.

Definition no_rows : DataFrame (list Z) -> Frame (point_row unit) :=
  fun _ => [].
Definition no_columns
  : Frame (joined_row (point_row unit) unit) -> DataFrame (list Z) :=
  fun _ => [].
Definition nothing_contains (g : unit) (pt : float * float) : bool := false.
Definition same_frame (df : DataFrame (list Z)) : DataFrame (list Z) := df.
Definition same_frame1 (df : DataFrame (list Z)) (names : list string)
  : DataFrame (list Z) := df.
Definition same_frame2 (df : DataFrame (list Z)) (a b : string)
  : DataFrame (list Z) := df.
Definition empty_inputs
  : result (Frame unit * DataFrame (list Z) * DataFrame (list Z)) :=
  Ok ([], [], []).
Definition fresh_run : Main.run_state (list Z) :=
  Main.mk_run_state (list Z) [] empty_disk.

(** A run of [process_data] on empty input files, from a fresh state. *)
Definition example_run (accuracy_m : Z) (verbose : bool)
  : Main.run_state (list Z)
    * result (DataFrame (list Z) * DataFrame (list Z) * DataFrame (list Z)) :=
  Main.process_data unit unit (list Z) nothing_contains float_min float_max
    float_div float_arange tt no_rows no_columns same_frame1 same_frame
    same_frame2 same_frame same_frame2 empty_inputs accuracy_m verbose
    fresh_run.

End Examples.

(* ===================================================================== *)
(** * More example data *)
(* ===================================================================== *)

Module MoreExamples.

Import GeoHelpers.

(** Intervals no two of which overlap. *)
Definition disjoint_intervals : Frame (Z * Z) :=
  Pd.DataFrame_of_rows [(0, 6); (10, 13)].

(** A rectangle [(xmin, xmax), (ymin, ymax)] as a polygon. *)
Definition in_box (g : (float * float) * (float * float))
  (pt : float * float) : bool :=
  ((fst (fst g) <=? fst pt)%float && (fst pt <=? snd (fst g))%float)
  && ((fst (snd g) <=? snd pt)%float && (snd pt <=? snd (snd g))%float).

(** Longitudes 18 to 19, latitudes -34 to -33. *)
Definition cape_box : Frame ((float * float) * (float * float)) :=
  Pd.DataFrame_of_rows [ ((18%float, 19%float), ((-34)%float, (-33)%float)) ].

Definition cape_points : Frame (point_row unit) :=
  [ (0, Examples.cape_a); (1, Examples.cape_b) ].

End MoreExamples.

(* ===================================================================== *)
(** * main.py, on the rows of a frame *)
(* ===================================================================== *)

Module MainRows.

Section ExtractNames.

(** The rows of the located gazetteer and the cells of their
    [feature_code] and [feature_class] columns; [None] is a missing
    value. *)
Variable R : Type.
Variables feature_code feature_class : R -> option string.

(** [cell == value], false on a missing value. *)
Definition cell_eq (cell : option string) (value : string) : bool :=
  match cell with
  | Some s => String.eqb s value
  | None => false
  end.

(** [pd.DataFrame(lg[lg.<column> == value]).reset_index(drop=True)] *)
Definition rows_where (lg : Frame R) (column : R -> option string)
  (value : string) : Frame R :=
  Pd.reset_index (filter (fun ir => cell_eq (column (snd ir)) value) lg).

Definition extract_names_datasets (located_geonames : Frame R)
  : Frame R * Frame R * Frame R * Frame R :=
  let lg := located_geonames in
  let provinces := rows_where lg feature_code "ADM1" in
  let districts := rows_where lg feature_code "ADM2" in
  let towns := rows_where lg feature_code "ADM3" in
  let suburbs := rows_where lg feature_class "P" in
  (provinces, districts, towns, suburbs).

End ExtractNames.

End MainRows.

Module PlaceExamples.

(** A gazetteer row: its name, feature code and feature class. *)
Definition place : Type := (string * (option string * option string))%type.
Definition place_code (p : place) : option string := fst (snd p).
Definition place_class (p : place) : option string := snd (snd p).

Definition places : Frame place :=
  Pd.DataFrame_of_rows
    [ ("Western Cape", (Some "ADM1", Some "A"));
      ("Cape Town", (Some "PPLA", Some "P"));
      ("City of Cape Town", (Some "ADM2", Some "A"));
      ("Table Mountain", (Some "MT", Some "T"));
      ("Nameless", (None, None)) ]%string.

End PlaceExamples.

(* ===================================================================== *)
(** * Properties *)
(* ===================================================================== *)

Import GeoHelpers.

(** ** The result monad *)

Lemma mapM_Forall2 {A B : Type} (Q : A -> B -> Prop) (f : A -> result B)
  (l : list A) :
  (forall x, In x l -> exists y, f x = Ok y /\ Q x y) ->
  exists ys, mapM f l = Ok ys /\ Forall2 Q l ys.
Proof.
  induction l as [|x xs IH]; intros H; cbn.
  - exists []. split; [reflexivity|constructor].
  - destruct (H x (or_introl eq_refl)) as (y & Hy & HQ).
    destruct IH as (ys & Hys & HF).
    { intros z Hz. apply H. right. exact Hz. }
    exists (y :: ys). rewrite Hy, Hys. cbn. split; [reflexivity|].
    constructor; assumption.
Qed.

(** ** Sorted distinct keys *)

Lemma In_insert_unique (k x : Z) (ks : list Z) :
  In x (Pd.insert_unique k ks) <-> x = k \/ In x ks.
Proof.
  induction ks as [|y ys IH]; cbn.
  - intuition.
  - destruct (Z.ltb_spec k y); cbn; [intuition|].
    destruct (Z.eqb_spec k y); cbn; [subst; intuition|].
    rewrite IH. intuition.
Qed.

Lemma In_sort_unique (x : Z) (ks : list Z) :
  In x (Pd.sort_unique ks) <-> In x ks.
Proof.
  induction ks as [|k ks IH]; cbn; [reflexivity|].
  rewrite In_insert_unique, IH. intuition.
Qed.

Lemma insert_unique_succ (k : Z) (ks : list Z) :
  Pd.insert_unique (Z.succ k) (map Z.succ ks)
  = map Z.succ (Pd.insert_unique k ks).
Proof.
  induction ks as [|y ys IH]; cbn; [reflexivity|].
  destruct (Z.ltb_spec k y), (Z.ltb_spec (Z.succ k) (Z.succ y)); try lia;
    [reflexivity|].
  destruct (Z.eqb_spec k y), (Z.eqb_spec (Z.succ k) (Z.succ y)); try lia;
    [reflexivity|].
  cbn. rewrite IH. reflexivity.
Qed.

Lemma sort_unique_succ (ks : list Z) :
  Pd.sort_unique (map Z.succ ks) = map Z.succ (Pd.sort_unique ks).
Proof.
  induction ks as [|k ks IH]; cbn; [reflexivity|].
  unfold Pd.sort_unique in IH. rewrite IH. apply insert_unique_succ.
Qed.

Lemma sort_unique_app (a b : list Z) :
  Pd.sort_unique (a ++ b) = fold_right Pd.insert_unique (Pd.sort_unique b) a.
Proof. unfold Pd.sort_unique. apply fold_right_app. Qed.

Lemma insert_zero_repeat (m : nat) (ks : list Z) :
  Forall (fun k => 0 < k) ks ->
  fold_right Pd.insert_unique ks (repeat 0 (S m)) = 0 :: ks.
Proof.
  intros Hpos. induction m as [|m IH].
  - cbn. destruct ks as [|y ys]; [reflexivity|].
    inversion Hpos; subst. cbn.
    destruct (Z.ltb_spec 0 y); [reflexivity|lia].
  - change (repeat 0 (S (S m))) with (0 :: repeat 0 (S m)).
    cbn [fold_right]. rewrite IH. reflexivity.
Qed.

(** ** Frames *)

Lemma rows_DataFrame_of_rows {R : Type} (rows : list R) :
  map snd (Pd.DataFrame_of_rows rows) = rows.
Proof.
  unfold Pd.DataFrame_of_rows, range. generalize 0%nat as a.
  induction rows as [|r rows IH]; intros a; cbn; [reflexivity|].
  rewrite IH. reflexivity.
Qed.

Lemma rows_reset_index {R : Type} (df : Frame R) :
  map snd (Pd.reset_index df) = map snd df.
Proof. apply rows_DataFrame_of_rows. Qed.

Lemma concat_ok {R : Type} (objs : list (Frame R)) :
  objs <> [] -> Pd.concat objs = Ok (concat objs).
Proof. destruct objs; [congruence|reflexivity]. Qed.

(** ** Groups of a frame *)

Section Groups.

Variable R : Type.

Lemma groupby_group_rows (df : list R) (keys : list Z) :
  map snd (Pd.groupby df keys) = map (Pd.group_rows keys df) (Pd.sort_unique keys).
Proof.
  unfold Pd.groupby. rewrite map_map. reflexivity.
Qed.

Lemma combine_app_same {X Y : Type} (a1 a2 : list X) (b1 b2 : list Y) :
  length a1 = length b1 ->
  combine (a1 ++ a2) (b1 ++ b2) = combine a1 b1 ++ combine a2 b2.
Proof.
  revert b1. induction a1 as [|x a1 IH]; intros [|y b1] H; cbn in *;
    try discriminate; [reflexivity|].
  rewrite IH by lia. reflexivity.
Qed.

Lemma group_rows_app (k1 k2 : list Z) (d1 d2 : list R) (k : Z) :
  length k1 = length d1 ->
  Pd.group_rows (k1 ++ k2) (d1 ++ d2) k = Pd.group_rows k1 d1 k ++ Pd.group_rows k2 d2 k.
Proof.
  intros H. unfold Pd.group_rows.
  rewrite combine_app_same by exact H.
  rewrite filter_app, map_app. reflexivity.
Qed.

Lemma group_rows_repeat_same (k : Z) (d : list R) :
  Pd.group_rows (repeat k (length d)) d k = d.
Proof.
  unfold Pd.group_rows. induction d as [|r d IH]; cbn; [reflexivity|].
  rewrite Z.eqb_refl. cbn. rewrite IH. reflexivity.
Qed.

Lemma group_rows_absent (keys : list Z) (d : list R) (k : Z) :
  ~ In k keys -> Pd.group_rows keys d k = [].
Proof.
  unfold Pd.group_rows. revert d.
  induction keys as [|x keys IH]; intros [|r d] H; cbn; try reflexivity.
  destruct (Z.eqb_spec x k) as [->|Hne].
  - exfalso. apply H. left. reflexivity.
  - apply IH. intros Hin. apply H. right. exact Hin.
Qed.

Lemma group_rows_succ (keys : list Z) (d : list R) (k : Z) :
  Pd.group_rows (map Z.succ keys) d (Z.succ k) = Pd.group_rows keys d k.
Proof.
  unfold Pd.group_rows. revert d.
  induction keys as [|x keys IH]; intros [|r d]; cbn; try reflexivity.
  destruct (Z.eqb_spec x k), (Z.eqb_spec (Z.succ x) (Z.succ k)); try lia;
    cbn; rewrite IH; reflexivity.
Qed.

(** Membership in some group is membership in the frame, whatever the
    keys. *)
Lemma In_groups (df : list R) (keys : list Z) (r : R) :
  length keys = length df ->
  In r (concat (map snd (Pd.groupby df keys))) <-> In r df.
Proof.
  intros Hlen. rewrite groupby_group_rows, in_concat. split.
  - intros (g & Hg & Hr). apply in_map_iff in Hg as (k & <- & _).
    unfold Pd.group_rows in Hr. apply in_map_iff in Hr as ((k', r') & Hr' & Hf).
    cbn in Hr'. subst r'. apply filter_In in Hf as (Hc & _).
    apply in_combine_r in Hc. exact Hc.
  - intros Hr. apply In_nth_error in Hr as (i & Hi).
    assert (Hlt : (i < length keys)%nat).
    { rewrite Hlen. apply nth_error_Some. congruence. }
    destruct (nth_error keys i) as [k|] eqn:Hk;
      [|apply nth_error_None in Hk; lia].
    exists (Pd.group_rows keys df k). split.
    + apply in_map, In_sort_unique. eapply nth_error_In, Hk.
    + unfold Pd.group_rows. apply in_map_iff. exists (k, r). split; [reflexivity|].
      apply filter_In. split; [|cbn; apply Z.eqb_refl].
      clear Hlt Hlen. revert keys df Hk Hi.
      induction i as [|i IH]; intros [|x keys] [|y df] Hk Hi; cbn in *;
        try discriminate.
      * left. congruence.
      * right. apply IH; assumption.
Qed.

End Groups.

(** ** [_chunker] *)

Lemma map_const_repeat {X Y : Type} (f : X -> Y) (y : Y) (l : list X) :
  (forall x, In x l -> f x = y) -> map f l = repeat y (length l).
Proof.
  induction l as [|x l IH]; intros H; cbn; [reflexivity|].
  rewrite (H x (or_introl eq_refl)), IH; [reflexivity|].
  intros z Hz. apply H. right. exact Hz.
Qed.

Lemma seq_from (a n : nat) : seq a n = map (Nat.add a) (seq 0 n).
Proof.
  revert a. induction n as [|n IH]; intros a; cbn; [reflexivity|].
  rewrite Nat.add_0_r. f_equal.
  rewrite (IH (S a)), (IH 1%nat), map_map. apply map_ext. intros i. lia.
Qed.

(** The group keys [np.arange(n) // c]. *)
Lemma chunk_keys_split (n : nat) (c : Z) :
  0 < c ->
  map (fun i => Z.of_nat i / c) (seq 0 n)
  = repeat 0 (Nat.min (Z.to_nat c) n)
    ++ map Z.succ (map (fun i => Z.of_nat i / c) (seq 0 (n - Z.to_nat c))).
Proof.
  intros Hc.
  replace n with (Nat.min (Z.to_nat c) n + (n - Z.to_nat c))%nat at 1 by lia.
  rewrite seq_app, map_app. f_equal.
  - rewrite (map_const_repeat _ 0), length_seq; [reflexivity|].
    intros i Hi. apply in_seq in Hi. apply Z.div_small. lia.
  - destruct (Nat.le_gt_cases n (Z.to_nat c)) as [Hle|Hgt].
    + replace (n - Z.to_nat c)%nat with 0%nat by lia. reflexivity.
    + rewrite Nat.min_l by lia. cbn [Nat.add].
      rewrite seq_from, !map_map. apply map_ext. intros i.
      replace (Z.of_nat (Z.to_nat c + i)) with (Z.of_nat i + 1 * c) by lia.
      rewrite Z.div_add by lia. lia.
Qed.

Lemma chunk_keys_nonneg (n : nat) (c : Z) :
  0 < c -> Forall (fun k => 0 <= k) (map (fun i => Z.of_nat i / c) (seq 0 n)).
Proof.
  intros Hc. apply Forall_forall. intros k Hk.
  apply in_map_iff in Hk as (i & <- & _). apply Z.div_pos; lia.
Qed.

Section Chunker.

Variable R : Type.

(** One step of the grouping: the first [c] rows form the group of key
    [0], the groups of the other rows follow. *)
Lemma groups_step (c : Z) (df : list R) :
  0 < c -> df <> [] ->
  map snd (Pd.groupby df (map (fun i => Z.of_nat i / c) (seq 0 (length df))))
  = firstn (Z.to_nat c) df
    :: map snd
         (Pd.groupby (skipn (Z.to_nat c) df)
            (map (fun i => Z.of_nat i / c)
               (seq 0 (length (skipn (Z.to_nat c) df))))).
Proof.
  intros Hc Hne.
  rewrite !groupby_group_rows, length_skipn.
  rewrite (chunk_keys_split (length df) c Hc).
  assert (Hlen1 : length (firstn (Z.to_nat c) df)
                  = Nat.min (Z.to_nat c) (length df)).
  { apply length_firstn. }
  assert (Hpos : (0 < Nat.min (Z.to_nat c) (length df))%nat).
  { destruct df; [congruence|cbn [length]; lia]. }
  rewrite <- Hlen1 in *.
  set (ks := map (fun i => Z.of_nat i / c) (seq 0 (length df - Z.to_nat c))).
  rewrite <- (firstn_skipn (Z.to_nat c) df) at 2.
  set (d1 := firstn (Z.to_nat c) df) in *.
  set (d2 := skipn (Z.to_nat c) df).
  rewrite sort_unique_app, sort_unique_succ.
  destruct (length d1) as [|m] eqn:Hm; [lia|].
  rewrite insert_zero_repeat.
  2:{ apply Forall_forall. intros k Hk. apply in_map_iff in Hk as (s & <- & Hs).
      rewrite In_sort_unique in Hs.
      pose proof (chunk_keys_nonneg (length df - Z.to_nat c) c Hc) as Hnn.
      rewrite Forall_forall in Hnn. specialize (Hnn s Hs). lia. }
  rewrite <- Hm. cbn [map]. f_equal.
  - rewrite group_rows_app by (rewrite repeat_length; reflexivity).
    rewrite group_rows_repeat_same.
    rewrite group_rows_absent; [apply app_nil_r|].
    intros Hin. apply in_map_iff in Hin as (s & Hs & Hin).
    pose proof (chunk_keys_nonneg (length df - Z.to_nat c) c Hc) as Hnn.
    rewrite Forall_forall in Hnn. specialize (Hnn s Hin). lia.
  - rewrite map_map. apply map_ext_in. intros s Hs.
    rewrite group_rows_app by (rewrite repeat_length; reflexivity).
    rewrite group_rows_succ.
    rewrite group_rows_absent; [reflexivity|].
    intros Hin. apply repeat_spec in Hin.
    rewrite In_sort_unique in Hs.
    pose proof (chunk_keys_nonneg (length df - Z.to_nat c) c Hc) as Hnn.
    rewrite Forall_forall in Hnn. specialize (Hnn s Hs). lia.
Qed.

Lemma contiguous_chunks_step (fuel c : nat) (df : list R) :
  df <> [] ->
  Spec.contiguous_chunks (S fuel) c df
  = firstn c df :: Spec.contiguous_chunks fuel c (skipn c df).
Proof. destruct df; [congruence|reflexivity]. Qed.

End Chunker.

Section ChunkerFrames.

Variable R : Type.

(** With a positive chunk size the chunks are the contiguous partitions
    of the specification. *)
Lemma chunker_contiguous (c : Z) (fuel : nat) (df : Frame R) :
  0 < c -> (length df <= fuel)%nat ->
  _chunker df (Some c) = Spec.contiguous_chunks fuel (Z.to_nat c) df.
Proof.
  intros Hc. unfold _chunker.
  destruct (Z.eqb_spec c 0) as [->|_]; [lia|].
  revert df. induction fuel as [|fuel IH]; intros df Hlen.
  - destruct df; [reflexivity|cbn in Hlen; lia].
  - destruct (length df) as [|m] eqn:Hm.
    + apply length_zero_iff_nil in Hm. subst df. reflexivity.
    + assert (Hne : df <> []) by (intros ->; discriminate).
      rewrite <- Hm.
      rewrite groups_step, contiguous_chunks_step by assumption.
      f_equal. apply IH. rewrite length_skipn. lia.
Qed.

End ChunkerFrames.

Section ContiguousChunks.

Variable R : Type.

Lemma contiguous_chunks_concat (fuel c : nat) (df : list R) :
  (0 < c)%nat -> (length df <= fuel)%nat ->
  concat (Spec.contiguous_chunks fuel c df) = df.
Proof.
  intros Hc. revert df. induction fuel as [|fuel IH]; intros df Hlen.
  - destruct df; [reflexivity|cbn in Hlen; lia].
  - destruct df as [|r df]; [reflexivity|].
    cbn [Spec.contiguous_chunks concat].
    rewrite IH.
    + apply firstn_skipn.
    + rewrite length_skipn. cbn [length] in *. lia.
Qed.

Lemma contiguous_chunks_sizes (fuel c : nat) (df : list R) :
  (0 < c)%nat ->
  Forall (fun part => part <> [] /\ (length part <= c)%nat)
    (Spec.contiguous_chunks fuel c df).
Proof.
  intros Hc. revert df. induction fuel as [|fuel IH]; intros df.
  - constructor.
  - destruct df as [|r df]; [constructor|].
    cbn [Spec.contiguous_chunks]. constructor; [|apply IH].
    split.
    + destruct c; [lia|]. cbn. discriminate.
    + rewrite length_firstn. lia.
Qed.

Lemma contiguous_chunks_nth (fuel c : nat) (df : list R) (j : nat)
  (part : list R) :
  nth_error (Spec.contiguous_chunks fuel c df) j = Some part ->
  part = firstn c (skipn (j * c) df).
Proof.
  revert df j. induction fuel as [|fuel IH]; intros df j H.
  - destruct j; discriminate.
  - destruct df as [|r df]; [destruct j; discriminate|].
    cbn [Spec.contiguous_chunks] in H. destruct j as [|j].
    + cbn in H. injection H as <-. reflexivity.
    + cbn [nth_error] in H. apply IH in H. rewrite H, skipn_skipn.
      do 2 f_equal. lia.
Qed.

End ContiguousChunks.

Lemma chunker_concat (R : Type) (df : Frame R) (c : Z) :
  0 < c -> concat (_chunker df (Some c)) = df.
Proof.
  intros Hc. rewrite (chunker_contiguous R c (length df)) by (lia || apply Nat.le_refl).
  apply contiguous_chunks_concat; lia.
Qed.

(** The rows of the chunks are the rows of the frame, for every chunk size
    (zero, positive or negative) and for no chunk size at all. *)
Lemma chunker_In (R : Type) (df : Frame R) (chunksize : option Z) (r : Z * R) :
  In r (concat (_chunker df chunksize)) <-> In r df.
Proof.
  unfold _chunker. destruct chunksize as [c|].
  - destruct (Z.eqb_spec c 0) as [_|_].
    + cbn. rewrite app_nil_r. reflexivity.
    + apply In_groups. rewrite length_map, length_seq. reflexivity.
  - cbn. rewrite app_nil_r. reflexivity.
Qed.

Lemma chunker_nonempty (R : Type) (df : Frame R) (chunksize : option Z) :
  df <> [] -> _chunker df chunksize <> [].
Proof.
  intros Hne. unfold _chunker. destruct chunksize as [c|]; [|discriminate].
  destruct (Z.eqb_spec c 0) as [_|_]; [discriminate|].
  destruct df as [|r df]; [congruence|].
  unfold Pd.groupby. rewrite map_map. cbn [length seq map].
  intros H. apply map_eq_nil in H.
  assert (Hin : In (0 / c) (Pd.sort_unique
            (0 / c :: map (fun i => Z.of_nat i / c) (seq 1 (length df))))).
  { apply In_sort_unique. left. reflexivity. }
  cbn [Z.of_nat] in H. rewrite H in Hin. destruct Hin.
Qed.

(** C6.  For every frame of N rows and every chunk size C > 0, [_chunker]
    yields contiguous groups: group number j holds the rows of index
    j*C .. j*C + C - 1 (those with index // C = j); each group has between 1
    and C rows, the sizes sum to N, and the groups concatenated in order are
    the frame itself. *)
Theorem chunker_partitions (R : Type) (df : Frame R) (c : Z) :
  0 < c ->
  let parts := _chunker df (Some c) in
  concat parts = df
  /\ Forall (fun part => part <> [] /\ Z.of_nat (length part) <= c) parts
  /\ list_sum (map (@length _) parts) = length df
  /\ (forall j part,
        nth_error parts j = Some part ->
        part = firstn (Z.to_nat c) (skipn (j * Z.to_nat c) df)).
Proof.
  intros Hc parts.
  assert (Hparts : parts = Spec.contiguous_chunks (length df) (Z.to_nat c) df).
  { apply chunker_contiguous; [exact Hc|apply Nat.le_refl]. }
  assert (Hcat : concat parts = df).
  { apply chunker_concat, Hc. }
  split; [exact Hcat|]. split; [|split].
  - rewrite Hparts.
    eapply Forall_impl; [|apply contiguous_chunks_sizes; lia].
    cbn. intros part [Hne Hle]. split; [exact Hne|lia].
  - rewrite <- length_concat, Hcat. reflexivity.
  - intros j part H. rewrite Hparts in H.
    eapply contiguous_chunks_nth, H.
Qed.

Lemma chunker_partitions_witness :
  let df : Frame nat := Pd.DataFrame_of_rows [10; 11; 12; 13; 14]%nat in
  0 < 2
  /\ _chunker df (Some 2)
     = [ [(0, 10%nat); (1, 11%nat)]; [(2, 12%nat); (3, 13%nat)];
         [(4, 14%nat)] ]
  /\ concat (_chunker df (Some 2)) = df.
Proof.
  split; [lia|]. split; [reflexivity|].
  apply (chunker_partitions nat (Pd.DataFrame_of_rows [10; 11; 12; 13; 14]%nat) 2).
  lia.
Defined.

(** ** [do_join] and [locate_points] *)

Section Locate.

Variables P G : Type.
Variable within : P -> G -> bool.

Lemma do_join_app (a b : Frame P) (geometries : Frame G) :
  do_join within (a ++ b) geometries
  = do_join within a geometries ++ do_join within b geometries.
Proof. unfold do_join. apply flat_map_app. Qed.

(** Joining chunk by chunk and concatenating is joining the
    concatenation. *)
Lemma do_join_concat (chunks : list (Frame P)) (geometries : Frame G) :
  concat (map (fun small => do_join within small geometries) chunks)
  = do_join within (concat chunks) geometries.
Proof.
  induction chunks as [|ch chunks IH]; cbn [map concat]; [reflexivity|].
  rewrite do_join_app, IH. reflexivity.
Qed.

Lemma In_do_join (points : Frame P) (geometries : Frame G)
  (i : Z) (p : P) (jg : Z * G) :
  In (i, (p, jg)) (do_join within points geometries)
  <-> In (i, p) points /\ In jg geometries /\ within p (snd jg) = true.
Proof.
  unfold do_join. rewrite in_flat_map. split.
  - intros ((i', p') & Hp & Hin).
    apply in_map_iff in Hin as (jg' & Heq & Hf).
    cbn in Heq. injection Heq as -> -> ->.
    apply filter_In in Hf as (Hg & Hw). cbn in Hw. auto.
  - intros (Hp & Hg & Hw). exists (i, p). split; [exact Hp|].
    apply in_map_iff. exists jg. split; [reflexivity|].
    apply filter_In. split; assumption.
Qed.

(** The loop of [locate_points] appends the join of each chunk, in chunk
    order, and counts the chunks and the rows. *)
Lemma locate_loop (geometries : Frame G) (chunks : list (Frame P))
  (st : locate_state P G) :
  fold_left (locate_step within geometries) chunks st
  = mk_locate_state
      (results st ++ map (fun small => do_join within small geometries) chunks)
      (steps st + Z.of_nat (length chunks))
      (n st + Z.of_nat (length (concat chunks))).
Proof.
  revert st. induction chunks as [|ch chunks IH]; intros st.
  - cbn. rewrite app_nil_r, !Z.add_0_r. destruct st; reflexivity.
  - cbn [fold_left]. rewrite IH. unfold locate_step. cbn [results steps n].
    cbn [map concat length]. rewrite <- app_assoc, length_app. cbn [app].
    f_equal; lia.
Qed.

(** [locate_points] in one equation: the chunks are joined one by one and
    the joins concatenated. *)
Lemma locate_points_unfold (points : Frame P) (geometries : Frame G)
  (chunksize : pyval) (verbose : bool) :
  locate_points within points geometries chunksize verbose
  = (c <- _check_chunksize chunksize (Z.of_nat (length points)) ;;
     ret <- Pd.concat (map (fun small => do_join within small geometries)
                         (_chunker points (Some c))) ;;
     Ok (Pd.reset_index ret)).
Proof.
  unfold locate_points.
  destruct (_check_chunksize chunksize (Z.of_nat (length points))) as [c|e];
    [|reflexivity].
  cbn [bind]. rewrite locate_loop. reflexivity.
Qed.

(** On a frame with at least one row and with a positive chunk size, the
    chunked join is the direct join of all the points, re-indexed. *)
Lemma locate_points_chunked_with (points : Frame P) (geometries : Frame G)
  (chunksize : pyval) (c : Z) (verbose : bool) :
  _check_chunksize chunksize (Z.of_nat (length points)) = Ok c ->
  0 < c -> points <> [] ->
  locate_points within points geometries chunksize verbose
  = Ok (Pd.reset_index (do_join within points geometries)).
Proof.
  intros Hcs Hc Hne. rewrite locate_points_unfold, Hcs. cbn [bind].
  pose proof (chunker_nonempty P points (Some c) Hne) as Hch.
  pose proof (chunker_concat P points c Hc) as Hcat.
  destruct (_chunker points (Some c)) as [|ch chunks] eqn:E; [congruence|].
  unfold Pd.concat. cbn [map bind].
  change (?x :: map ?f chunks) with (map f (ch :: chunks)).
  rewrite do_join_concat, Hcat. reflexivity.
Qed.

Lemma locate_points_chunked (points : Frame P) (geometries : Frame G)
  (c : Z) (verbose : bool) :
  0 < c -> points <> [] ->
  locate_points within points geometries (PyInt c) verbose
  = Ok (Pd.reset_index (do_join within points geometries)).
Proof.
  intros Hc Hne. apply (locate_points_chunked_with _ _ _ c);
    [reflexivity|exact Hc|exact Hne].
Qed.

(** The same with the adaptive default of the chunk size. *)
Lemma locate_points_default_chunked (points : Frame P)
  (geometries : Frame G) (verbose : bool) :
  points <> [] ->
  locate_points within points geometries PyNone verbose
  = Ok (Pd.reset_index (do_join within points geometries)).
Proof.
  intros Hne.
  apply (locate_points_chunked_with _ _ _
           (Z.min (Z.max (Z.of_nat (length points) / 50) 5000) 60000));
    [reflexivity|lia|exact Hne].
Qed.

(** The joins of the chunks, taken in any order, hold the rows of the
    direct join. *)
Lemma join_chunks_any_order (points : Frame P) (geometries : Frame G)
  (c : Z) (chunks : list (Frame P)) :
  0 < c ->
  Permutation chunks (_chunker points (Some c)) ->
  Permutation
    (concat (map (fun small => do_join within small geometries) chunks))
    (do_join within points geometries).
Proof.
  intros Hc Hperm.
  pose proof (do_join_concat (_chunker points (Some c)) geometries) as Hcat.
  rewrite (chunker_concat P points c Hc) in Hcat. rewrite <- Hcat. clear Hcat.
  induction Hperm as [|ch l l' _ IH|a b l|l l' l'' _ IH1 _ IH2];
    cbn [map concat].
  - constructor.
  - apply Permutation_app_head, IH.
  - rewrite !app_assoc. apply Permutation_app_tail, Permutation_app_comm.
  - etransitivity; eassumption.
Qed.

(** The rows [locate_points] returns, when it returns: the pairs of an
    input point and a polygon that contains it. *)
Lemma locate_points_rows (points : Frame P) (geometries : Frame G)
  (chunksize : pyval) (verbose : bool) (ret : Frame (joined_row P G)) :
  locate_points within points geometries chunksize verbose = Ok ret ->
  forall p jg,
    In (p, jg) (map snd ret)
    <-> In p (map snd points) /\ In jg geometries
        /\ within p (snd jg) = true.
Proof.
  rewrite locate_points_unfold.
  destruct (_check_chunksize chunksize (Z.of_nat (length points))) as [c|e];
    [|discriminate].
  cbn [bind]. unfold Pd.concat.
  destruct (map _ (_chunker points (Some c))) as [|j js] eqn:E;
    [discriminate|].
  rewrite <- E. cbn [bind]. intros [= <-] p jg.
  rewrite rows_reset_index, do_join_concat, !in_map_iff. split.
  - intros ((i, row) & Hrow & Hin). cbn in Hrow. subst row.
    apply In_do_join in Hin as (Hp & Hg & Hw).
    apply (proj1 (chunker_In P points (Some c) (i, p))) in Hp.
    split; [|split; assumption].
    exists (i, p). split; [reflexivity|exact Hp].
  - intros (((i, p') & Hp' & Hp) & Hg & Hw). cbn in Hp'. subst p'.
    exists (i, (p, jg)). split; [reflexivity|].
    apply In_do_join. split; [|split; assumption].
    apply (proj2 (chunker_In P points (Some c) (i, p))). exact Hp.
Qed.

(** [locate_points] returns whenever the chunk size is accepted and there
    is at least one point. *)
Lemma locate_points_returns (points : Frame P) (geometries : Frame G)
  (chunksize : pyval) (verbose : bool) (c : Z) :
  _check_chunksize chunksize (Z.of_nat (length points)) = Ok c ->
  points <> [] ->
  exists ret,
    locate_points within points geometries chunksize verbose = Ok ret.
Proof.
  intros Hc Hne. rewrite locate_points_unfold, Hc. cbn [bind].
  pose proof (chunker_nonempty P points (Some c) Hne) as Hch.
  destruct (_chunker points (Some c)) as [|ch chunks]; [congruence|].
  cbn. eexists. reflexivity.
Qed.

End Locate.

(** C1.  With no point at all and a positive chunk size, [_chunker] yields
    no chunk, [pd.concat] refuses the empty list of joins and
    [locate_points] raises, whereas the direct join of the same points is
    the empty frame. *)
Theorem locate_points_no_rows_raises (P G : Type) (within : P -> G -> bool)
  (geometries : Frame G) (c : positive) (verbose : bool) :
  locate_points within [] geometries (PyInt (Z.pos c)) verbose
  = Err (ValueError "No objects to concatenate")
  /\ Pd.reset_index (do_join within [] geometries) = [].
Proof. split; reflexivity. Qed.

(** C5.  [locate_points] returns for every frame with at least one point
    (the chunk size being absent or an integer), and whenever it returns,
    every returned row is an input point together with a polygon that
    contains it, and an input point occurs in the returned rows if and only
    if some polygon contains it. *)
Theorem locate_points_sound_complete (P G : Type) (within : P -> G -> bool)
  (points : Frame P) (geometries : Frame G) (chunksize : pyval)
  (verbose : bool) :
  (points <> [] ->
   chunksize = PyNone \/ (exists c, chunksize = PyInt c) ->
   exists ret,
     locate_points within points geometries chunksize verbose = Ok ret)
  /\ (forall ret,
        locate_points within points geometries chunksize verbose = Ok ret ->
        (forall row,
            In row (map snd ret) ->
            In (fst row) (map snd points) /\ In (snd row) geometries
            /\ within (fst row) (snd (snd row)) = true)
        /\ (forall p,
              In p (map snd points) ->
              (exists jg, In (p, jg) (map snd ret))
              <-> (exists jg, In jg geometries /\ within p (snd jg) = true))).
Proof.
  split.
  - intros Hne Hcs.
    assert (Hc : exists c,
               _check_chunksize chunksize (Z.of_nat (length points)) = Ok c).
    { destruct Hcs as [->|(c & ->)]; eexists; reflexivity. }
    destruct Hc as (c & Hc).
    eapply locate_points_returns; eassumption.
  - intros ret Hret.
    pose proof (locate_points_rows P G within points geometries chunksize
                  verbose ret Hret) as Hrows.
    split.
    + intros [p jg] Hin. apply Hrows in Hin. exact Hin.
    + intros p Hp. split.
      * intros (jg & Hin). apply Hrows in Hin as (_ & Hg & Hw).
        exists jg. split; assumption.
      * intros (jg & Hg & Hw). exists jg. apply Hrows. auto.
Qed.

Lemma locate_points_sound_complete_witness :
  exists ret,
    locate_points Examples.in_interval Examples.line_points
      Examples.intervals (PyInt 3) false = Ok ret
    /\ (exists jg, In (5, jg) (map snd ret))
    /\ ~ (exists jg, In (20, jg) (map snd ret)).
Proof.
  destruct (locate_points_sound_complete Z (Z * Z) Examples.in_interval
              Examples.line_points Examples.intervals (PyInt 3) false)
    as [Hreturns Hrows].
  destruct Hreturns as (ret & Hret).
  - discriminate.
  - right. exists 3. reflexivity.
  - exists ret. split; [exact Hret|].
    destruct (Hrows ret Hret) as (_ & Hiff). split.
    + apply Hiff.
      * vm_compute. tauto.
      * exists (0, (0, 6)). vm_compute. split; [left|]; reflexivity.
    + intros Hex. apply Hiff in Hex.
      * destruct Hex as (jg & Hin & Hw). vm_compute in Hin.
        destruct Hin as [<-|[<-|[]]]; vm_compute in Hw; discriminate.
      * vm_compute. tauto.
Defined.

(** ** The grid *)

Section GridFacts.

Variable A : Type.

Lemma combine_const_r (l : list A) (y : A) :
  combine l (map (fun _ => y) l) = map (fun x => (x, y)) l.
Proof.
  induction l as [|x l IH]; cbn; [reflexivity|]. rewrite IH. reflexivity.
Qed.

(** The meshgrid construction enumerates longitude in the outer loop and
    latitude in the inner loop. *)
Lemma cartesian_product_long_then_lat (lats longs : list A) :
  cartesian_product lats longs = Spec.long_then_lat lats longs.
Proof.
  unfold cartesian_product, Np.meshgrid, Np.reshape_rows, Spec.long_then_lat.
  induction longs as [|y longs IH]; cbn; [reflexivity|].
  rewrite combine_const_r, IH. reflexivity.
Qed.

Lemma long_then_lat_concat_longs (lats : list A) (chunks : list (list A)) :
  concat (map (Spec.long_then_lat lats) chunks)
  = Spec.long_then_lat lats (concat chunks).
Proof.
  unfold Spec.long_then_lat.
  induction chunks as [|c chunks IH]; cbn; [reflexivity|].
  rewrite flat_map_app, IH. reflexivity.
Qed.

Lemma long_then_lat_app_lats (a b longs : list A) :
  Permutation (Spec.long_then_lat (a ++ b) longs)
    (Spec.long_then_lat a longs ++ Spec.long_then_lat b longs).
Proof.
  unfold Spec.long_then_lat.
  induction longs as [|y longs IH]; cbn; [constructor|].
  rewrite map_app, <- !app_assoc.
  apply Permutation_app_head.
  rewrite IH.
  rewrite !app_assoc. apply Permutation_app_tail.
  apply Permutation_app_comm.
Qed.

Lemma long_then_lat_nil_lats (longs : list A) :
  Spec.long_then_lat [] longs = [].
Proof.
  unfold Spec.long_then_lat. induction longs; cbn; auto.
Qed.

Lemma long_then_lat_concat_lats (chunks : list (list A)) (longs : list A) :
  Permutation
    (concat (map (fun c => Spec.long_then_lat c longs) chunks))
    (Spec.long_then_lat (concat chunks) longs).
Proof.
  induction chunks as [|c chunks IH]; cbn [map concat].
  - rewrite long_then_lat_nil_lats. constructor.
  - rewrite long_then_lat_app_lats. apply Permutation_app_head, IH.
Qed.

(** *** [np.array_split] *)

Lemma firstn_plus (a b : nat) (l : list A) :
  firstn (a + b) l = firstn a l ++ firstn b (skipn a l).
Proof.
  revert l. induction a as [|a IH]; intros l; [reflexivity|].
  destruct l as [|x l]; cbn.
  - rewrite firstn_nil. reflexivity.
  - rewrite IH. reflexivity.
Qed.

Lemma split_sections_concat (sizes : list nat) (ary : list A) :
  concat (Np.split_sections sizes ary) = firstn (list_sum sizes) ary.
Proof.
  revert ary. induction sizes as [|s sizes IH]; intros ary; cbn;
    [reflexivity|].
  rewrite IH, firstn_plus. reflexivity.
Qed.

Lemma split_sections_length (sizes : list nat) (ary : list A) :
  length (Np.split_sections sizes ary) = length sizes.
Proof.
  revert ary. induction sizes as [|s sizes IH]; intros ary; cbn;
    [reflexivity|]. rewrite IH. reflexivity.
Qed.

Lemma split_sections_bound (sizes : list nat) (ary : list A) (b : nat) :
  Forall (fun s => (s <= b)%nat) sizes ->
  Forall (fun c => (length c <= b)%nat) (Np.split_sections sizes ary).
Proof.
  intros H. revert ary. induction H as [|s sizes Hs _ IH]; intros ary; cbn;
    constructor; [|apply IH].
  rewrite length_firstn. lia.
Qed.

Lemma list_sum_repeat (x m : nat) : list_sum (repeat x m) = (m * x)%nat.
Proof.
  unfold list_sum. induction m as [|m IH]; cbn; [reflexivity|].
  rewrite IH. reflexivity.
Qed.

(** The sub-arrays of [np.array_split], concatenated, are the array; there
    are [sections] of them, of at most [len // sections + 1] elements. *)
Lemma array_split_spec (ary : list A) (sections : nat) :
  (0 < sections)%nat ->
  exists chunks,
    Np.array_split ary sections = Ok chunks
    /\ concat chunks = ary
    /\ length chunks = sections
    /\ Forall (fun c => (length c <= length ary / sections + 1)%nat) chunks.
Proof.
  intros Hs. unfold Np.array_split.
  destruct (Nat.eqb_spec sections 0) as [->|_]; [lia|].
  eexists. split; [reflexivity|].
  pose proof (Nat.div_mod_eq (length ary) sections) as Hdm.
  pose proof (Nat.mod_upper_bound (length ary) sections) as Hmod.
  set (q := (length ary / sections)%nat) in *.
  set (r := (length ary mod sections)%nat) in *.
  split; [|split].
  - rewrite split_sections_concat, list_sum_app, !list_sum_repeat.
    apply firstn_all2. nia.
  - rewrite split_sections_length, length_app, !repeat_length. lia.
  - apply split_sections_bound, Forall_app. split.
    + apply Forall_forall. intros s Hin. apply repeat_spec in Hin. lia.
    + apply Forall_forall. intros s Hin. apply repeat_spec in Hin. lia.
Qed.

End GridFacts.

Section SmallerGrid.

Variable A : Type.

Lemma concat_rows_Forall2_perm {X : Type} (f : X -> list (A * A))
  (chunks : list X) (dfs : list (Frame (A * A))) :
  Forall2 (fun c df => Permutation (map snd df) (f c)) chunks dfs ->
  Permutation (map snd (concat dfs)) (concat (map f chunks)).
Proof.
  induction 1 as [|c df chunks dfs H _ IH]; cbn; [constructor|].
  rewrite map_app. apply Permutation_app; assumption.
Qed.

Lemma concat_rows_Forall2_eq {X : Type} (f : X -> list (A * A))
  (chunks : list X) (dfs : list (Frame (A * A))) :
  Forall2 (fun c df => map snd df = f c) chunks dfs ->
  map snd (concat dfs) = concat (map f chunks).
Proof.
  induction 1 as [|c df chunks dfs H _ IH]; cbn; [reflexivity|].
  rewrite map_app, H, IH. reflexivity.
Qed.

Lemma chunk_shorter (m b : nat) :
  (1500 <= m)%nat -> (b <= m / (m / 100) + 1)%nat -> (b < m)%nat.
Proof.
  intros Hm Hb.
  assert (Hk : (15 <= m / 100)%nat).
  { apply Nat.div_le_lower_bound; lia. }
  assert (Hq : (m / (m / 100) <= m / 15)%nat).
  { apply Nat.div_le_compat_l. lia. }
  pose proof (Nat.Div0.mul_div_le m 15) as H15.
  lia.
Qed.

(** With enough fuel the recursion returns a frame whose rows are the rows
    of the direct product, possibly in another order; the order is that
    of the direct product when the latitude axis is never split. *)
Lemma smaller_grid_fuel_spec (fuel : nat) (lats longs : list A)
  (accuracy_m : Z) (verbose : bool) :
  (length lats + length longs < fuel)%nat ->
  exists grid,
    _generate_smaller_grid_fuel fuel lats longs accuracy_m verbose = Ok grid
    /\ Permutation (map snd grid) (Spec.long_then_lat lats longs)
    /\ ((length lats < 1500)%nat ->
        map snd grid = Spec.long_then_lat lats longs).
Proof.
  revert lats longs. induction fuel as [|fuel IH]; intros lats longs Hfuel;
    [lia|].
  cbn [_generate_smaller_grid_fuel].
  destruct (Nat.leb_spec 1500 (Nat.max (length lats) (length longs)))
    as [Hbig|Hsmall].
  - destruct (Nat.ltb_spec (length longs) (length lats)) as [Hlat|Hlong].
    + (* the latitude axis is split *)
      assert (Hm : (1500 <= length lats)%nat) by lia.
      destruct (array_split_spec A lats (length lats / 100))
        as (chunks & Hsplit & Hcat & Hlen & Hbound).
      { apply Nat.div_str_pos. lia. }
      rewrite Hsplit. cbn [bind].
      destruct (mapM_Forall2
                  (fun c df =>
                     Permutation (map snd df) (Spec.long_then_lat c longs))
                  (fun lat =>
                     _generate_smaller_grid_fuel fuel lat longs accuracy_m
                       verbose) chunks) as (dfs & Hdfs & HF).
      { intros c Hc. rewrite Forall_forall in Hbound.
        specialize (Hbound c Hc).
        pose proof (chunk_shorter (length lats) (length c) Hm Hbound).
        destruct (IH c longs) as (g & Hg & Hperm & _); [lia|].
        exists g. split; assumption. }
      unfold Frame in *. rewrite Hdfs. cbn [bind].
      assert (Hne : dfs <> []).
      { apply Forall2_length in HF. intros ->. cbn in HF.
        assert (0 < length lats / 100)%nat by (apply Nat.div_str_pos; lia).
        lia. }
      rewrite concat_ok by exact Hne.
      eexists. split; [reflexivity|]. split; [|lia].
      rewrite (concat_rows_Forall2_perm _ _ _ HF).
      rewrite long_then_lat_concat_lats, Hcat. reflexivity.
    + (* the longitude axis is split *)
      assert (Hm : (1500 <= length longs)%nat) by lia.
      destruct (array_split_spec A longs (length longs / 100))
        as (chunks & Hsplit & Hcat & Hlen & Hbound).
      { apply Nat.div_str_pos. lia. }
      rewrite Hsplit. cbn [bind].
      destruct (mapM_Forall2
                  (fun c df =>
                     Permutation (map snd df) (Spec.long_then_lat lats c)
                     /\ ((length lats < 1500)%nat ->
                         map snd df = Spec.long_then_lat lats c))
                  (fun lon =>
                     _generate_smaller_grid_fuel fuel lats lon accuracy_m
                       verbose) chunks) as (dfs & Hdfs & HF).
      { intros c Hc. rewrite Forall_forall in Hbound.
        specialize (Hbound c Hc).
        pose proof (chunk_shorter (length longs) (length c) Hm Hbound).
        destruct (IH lats c) as (g & Hg & Hperm & Heq); [lia|].
        exists g. auto. }
      unfold Frame in *. rewrite Hdfs. cbn [bind].
      assert (Hne : dfs <> []).
      { apply Forall2_length in HF. intros ->. cbn in HF.
        assert (0 < length longs / 100)%nat by (apply Nat.div_str_pos; lia).
        lia. }
      rewrite concat_ok by exact Hne.
      eexists. split; [reflexivity|]. split.
      * rewrite (concat_rows_Forall2_perm (Spec.long_then_lat lats) chunks dfs).
        -- rewrite long_then_lat_concat_longs, Hcat. reflexivity.
        -- eapply Forall2_impl; [|exact HF]. cbn. tauto.
      * intros Hshort.
        rewrite (concat_rows_Forall2_eq (Spec.long_then_lat lats) chunks dfs).
        -- rewrite long_then_lat_concat_longs, Hcat. reflexivity.
        -- eapply Forall2_impl; [|exact HF]. cbn. intros c df [_ H].
           apply H, Hshort.
  - eexists. split; [reflexivity|].
    rewrite rows_DataFrame_of_rows, cartesian_product_long_then_lat.
    split; [reflexivity|]. intros _. reflexivity.
Qed.

End SmallerGrid.

Section SmallerGridFuel.

Variable A : Type.

Lemma mapM_ext_in {X Y : Type} (f g : X -> result Y) (l : list X) :
  (forall x, In x l -> f x = g x) -> mapM f l = mapM g l.
Proof.
  induction l as [|x l IH]; intros H; cbn; [reflexivity|].
  rewrite (H x (or_introl eq_refl)), IH; [reflexivity|].
  intros y Hy. apply H. right. exact Hy.
Qed.

(** The answer does not depend on the fuel, once there is enough of it. *)
Lemma smaller_grid_fuel_stable (fuel1 fuel2 : nat) (lats longs : list A)
  (accuracy_m : Z) (verbose : bool) :
  (length lats + length longs < fuel1)%nat ->
  (length lats + length longs < fuel2)%nat ->
  _generate_smaller_grid_fuel fuel1 lats longs accuracy_m verbose
  = _generate_smaller_grid_fuel fuel2 lats longs accuracy_m verbose.
Proof.
  revert fuel2 lats longs.
  induction fuel1 as [|fuel1 IH]; intros fuel2 lats longs H1 H2; [lia|].
  destruct fuel2 as [|fuel2]; [lia|].
  cbn [_generate_smaller_grid_fuel].
  destruct (Nat.leb_spec 1500 (Nat.max (length lats) (length longs)))
    as [Hbig|Hsmall]; [|reflexivity].
  destruct (Nat.ltb_spec (length longs) (length lats)) as [Hlat|Hlong].
  - assert (Hm : (1500 <= length lats)%nat) by lia.
    destruct (array_split_spec A lats (length lats / 100))
      as (chunks & Hsplit & _ & _ & Hbound).
    { apply Nat.div_str_pos. lia. }
    rewrite Hsplit. cbn [bind]. f_equal.
    apply mapM_ext_in. intros c Hc.
    rewrite Forall_forall in Hbound. specialize (Hbound c Hc).
    pose proof (chunk_shorter (length lats) (length c) Hm Hbound).
    apply IH; lia.
  - assert (Hm : (1500 <= length longs)%nat) by lia.
    destruct (array_split_spec A longs (length longs / 100))
      as (chunks & Hsplit & _ & _ & Hbound).
    { apply Nat.div_str_pos. lia. }
    rewrite Hsplit. cbn [bind]. f_equal.
    apply mapM_ext_in. intros c Hc.
    rewrite Forall_forall in Hbound. specialize (Hbound c Hc).
    pose proof (chunk_shorter (length longs) (length c) Hm Hbound).
    apply IH; lia.
Qed.

End SmallerGridFuel.

(** C3 (amended).  The direct product enumerates longitude in the outer loop
    and latitude in the inner loop.  [_generate_smaller_grid] always
    returns, and its rows are those of the direct product up to their
    order; they come in the order of the direct product when the latitude
    array has fewer than 1500 elements. *)
Theorem smaller_grid_rows (A : Type) (lats longs : list A) (accuracy_m : Z)
  (verbose : bool) :
  cartesian_product lats longs = Spec.long_then_lat lats longs
  /\ exists grid,
       _generate_smaller_grid lats longs accuracy_m verbose = Ok grid
       /\ Permutation (map snd grid) (cartesian_product lats longs)
       /\ ((length lats < 1500)%nat ->
           map snd grid = cartesian_product lats longs).
Proof.
  split; [apply cartesian_product_long_then_lat|].
  rewrite cartesian_product_long_then_lat.
  apply smaller_grid_fuel_spec. lia.
Qed.

Lemma smaller_grid_rows_witness :
  (length [0; 1] < 1500)%nat
  /\ exists grid,
       _generate_smaller_grid [0; 1] (range 1600) 1000 false = Ok grid
       /\ map snd grid = cartesian_product [0; 1] (range 1600).
Proof.
  split; [cbn; lia|].
  destruct (smaller_grid_rows Z [0; 1] (range 1600) 1000 false)
    as (_ & grid & Hgrid & _ & Hrows).
  exists grid. split; [exact Hgrid|]. apply Hrows. cbn. lia.
Defined.

(** C3, as stated, fails: the rows of a 2 x 2 grid do not come with latitude
    in the outer loop, and with 1500 latitudes and 2 longitudes the
    recursive construction does not keep the order of the direct product. *)
Lemma smaller_grid_order_counterexample :
  ~ (exists grid,
        _generate_smaller_grid [0; 1] [0; 1] 1000 false = Ok grid
        /\ map snd grid = Spec.lat_then_long [0; 1] [0; 1])
  /\ ~ (exists grid,
          _generate_smaller_grid (range 1500) [0; 1] 1000 false = Ok grid
          /\ map snd grid = cartesian_product (range 1500) [0; 1]).
Proof.
  split.
  - intros (grid & Hgrid & Hrows).
    vm_compute in Hgrid. injection Hgrid as <-. vm_compute in Hrows.
    discriminate.
  - intros (grid & Hgrid & Hrows).
    assert (H1 : match _generate_smaller_grid (range 1500) [0; 1] 1000 false with
                 | Ok g => nth_error (map snd g) 100
                 | Err _ => None
                 end = Some (0, 1)) by (vm_compute; reflexivity).
    assert (H2 : nth_error (cartesian_product (range 1500) [0; 1]) 100
                 = Some (100, 0)) by (vm_compute; reflexivity).
    rewrite Hgrid, Hrows, H2 in H1. discriminate.
Qed.

(** ** [generate_grid] *)

Lemma accuracy_values_eq :
  accuracy_values = [1; 10; 100; 1000; 10000; 100000].
Proof. reflexivity. Qed.

Lemma existsb_eqb_In (z : Z) (l : list Z) :
  existsb (Z.eqb z) l = true <-> In z l.
Proof.
  rewrite existsb_exists. split.
  - intros (x & Hx & Heq). apply Z.eqb_eq in Heq. subst. exact Hx.
  - intros H. exists z. split; [exact H|apply Z.eqb_refl].
Qed.

Section GenerateGrid.

Variable A : Type.
Variable np_min np_max : A * A -> A.
Variable true_divide : Z -> Z -> A.
Variable np_arange : A -> A -> A -> list A.
Variables lats longs : A * A.
Variable verbose : bool.

Lemma generate_grid_accepts (z : Z) :
  In z [1; 10; 100; 1000; 10000; 100000] ->
  exists grid,
    generate_grid np_min np_max true_divide np_arange lats longs
      (PyInt z) verbose = Ok grid
    /\ Permutation (map snd grid)
         (cartesian_product
            (np_arange (np_min lats) (np_max lats) (true_divide z 100000))
            (np_arange (np_min longs) (np_max longs)
               (true_divide z 100000))).
Proof.
  intros Hz. rewrite <- accuracy_values_eq in Hz.
  apply existsb_eqb_In in Hz.
  unfold generate_grid. cbn [py_int bind]. rewrite Hz.
  cbn [negb try_except bind].
  destruct (smaller_grid_fuel_spec A
              (S (length (np_arange (np_min lats) (np_max lats)
                            (true_divide z 100000))
                  + length (np_arange (np_min longs) (np_max longs)
                              (true_divide z 100000))))
              (np_arange (np_min lats) (np_max lats) (true_divide z 100000))
              (np_arange (np_min longs) (np_max longs)
                 (true_divide z 100000)) z verbose)
    as (grid & Hgrid & Hperm & _); [lia|].
  unfold _generate_smaller_grid. rewrite Hgrid. cbn [bind].
  eexists. split; [reflexivity|].
  rewrite rows_reset_index, cartesian_product_long_then_lat. exact Hperm.
Qed.

Lemma generate_grid_rejects (z : Z) :
  ~ In z [1; 10; 100; 1000; 10000; 100000] ->
  generate_grid np_min np_max true_divide np_arange lats longs
    (PyInt z) verbose
  = Err (ValueError
           "accuracy_m must be one of these values: (1,10,100,1000,10000,100000)").
Proof.
  intros Hz. rewrite <- accuracy_values_eq in Hz.
  unfold generate_grid. cbn [py_int bind].
  destruct (existsb (Z.eqb z) accuracy_values) eqn:E.
  - apply existsb_eqb_In in E. contradiction.
  - reflexivity.
Qed.

Lemma generate_grid_not_int (v : pyval) (e : exn) :
  py_int v = Err e ->
  generate_grid np_min np_max true_divide np_arange lats longs v verbose
  = Err (ValueError
           "accuracy_m must be one of these values: (1,10,100,1000,10000,100000)").
Proof. intros Hv. unfold generate_grid. rewrite Hv. reflexivity. Qed.

End GenerateGrid.



(** ** [_check_chunksize] *)

Lemma default_chunksize_range (total_rows : Z) :
  5000 <= Spec.default_chunksize total_rows <= 60000.
Proof. unfold Spec.default_chunksize. lia. Qed.

(** C7 (amended).  When no chunk size is given, and when the value given is
    of a type [int] rejects with a TypeError, [_check_chunksize] answers
    the adaptive default min(max(N // 50, 5000), 60000), which lies between
    5000 and 60000, and raises nothing; an integer is kept as it is; any
    other exception of [int] is raised to the caller. *)
Theorem check_chunksize_default (chunksize : pyval) (df_size : Z) :
  (chunksize = PyNone \/ (exists msg, py_int chunksize = Err (TypeError msg)) ->
   _check_chunksize chunksize df_size = Ok (Spec.default_chunksize df_size)
   /\ Spec.default_chunksize df_size
      = Z.min (Z.max (df_size / 50) 5000) 60000
   /\ 5000 <= Spec.default_chunksize df_size <= 60000)
  /\ (forall c, py_int chunksize = Ok c ->
                _check_chunksize chunksize df_size = Ok c)
  /\ (forall e, py_int chunksize = Err e ->
                (forall msg, e <> TypeError msg) ->
                _check_chunksize chunksize df_size = Err e).
Proof.
  split; [|split].
  - intros H.
    assert (Hty : exists msg, py_int chunksize = Err (TypeError msg)).
    { destruct H as [->|H]; [eexists; reflexivity|exact H]. }
    destruct Hty as (msg & Hmsg).
    unfold _check_chunksize. rewrite Hmsg.
    split; [reflexivity|]. split; [reflexivity|].
    apply default_chunksize_range.
  - intros c Hc. unfold _check_chunksize. rewrite Hc. reflexivity.
  - intros e He Hne. unfold _check_chunksize. rewrite He.
    destruct e; try reflexivity. exfalso. eapply Hne. reflexivity.
Qed.

Lemma check_chunksize_default_witness :
  _check_chunksize PyNone 1000000 = Ok 20000
  /\ _check_chunksize (PyList [1; 2]) 10 = Ok 5000
  /\ _check_chunksize (PyInt 7) 10 = Ok 7
  /\ _check_chunksize (PyFloat PrimFloat.nan) 10
     = Err (ValueError "cannot convert float NaN to integer").
Proof.
  split; [|split; [|split]].
  - destruct (check_chunksize_default PyNone 1000000) as (H & _ & _).
    destruct H as (H & _ & _); [left; reflexivity|exact H].
  - destruct (check_chunksize_default (PyList [1; 2]) 10) as (H & _ & _).
    destruct H as (H & _ & _); [right; eexists; reflexivity|exact H].
  - destruct (check_chunksize_default (PyInt 7) 10) as (_ & H & _).
    apply H. reflexivity.
  - destruct (check_chunksize_default (PyFloat PrimFloat.nan) 10)
      as (_ & _ & H).
    apply H; [reflexivity|]. intros msg. discriminate.
Defined.

(** C7, as stated, fails: a string that is not an integer literal cannot be
    converted, and it is not replaced by the default: the ValueError of
    [int] reaches the caller. *)
Lemma check_chunksize_malformed_counterexample :
  py_int (PyStr "abc") = Err (ValueError "invalid literal for int() with base 10")
  /\ _check_chunksize (PyStr "abc") 1000000
     = Err (ValueError "invalid literal for int() with base 10")
  /\ _check_chunksize (PyStr "abc") 1000000
     <> Ok (Spec.default_chunksize 1000000).
Proof. split; [reflexivity|]. split; [reflexivity|discriminate]. Qed.

(** ** [generate_key] *)

(** Two float64 values that compare equal are the same value, or are both
    zeros (of either sign). *)
Lemma float_eqb_cases (x y : float) :
  (x =? y)%float = true ->
  x = y
  \/ ((x = PrimFloat.zero \/ x = PrimFloat.neg_zero)
      /\ (y = PrimFloat.zero \/ y = PrimFloat.neg_zero)).
Proof.
  rewrite FloatAxioms.eqb_spec. unfold SFeqb, SFcompare.
  destruct (Prim2SF x) as [sx|sx| |sx mx ex] eqn:Ex;
    destruct (Prim2SF y) as [sy|sy| |sy my ey] eqn:Ey;
    try discriminate; try (destruct sx; discriminate);
    try (destruct sy; discriminate).
  - intros _. right.
    rewrite <- (SF2Prim_Prim2SF x), <- (SF2Prim_Prim2SF y), Ex, Ey. split.
    + destruct sx; [right|left]; reflexivity.
    + destruct sy; [right|left]; reflexivity.
  - intros H. left. apply Prim2SF_inj. rewrite Ex, Ey.
    destruct sx, sy; try discriminate; reflexivity.
  - intros H. left. apply Prim2SF_inj. rewrite Ex, Ey.
    assert (Hm : (mx ?= my)%positive = Eq /\ ex = ey /\ sx = sy).
    { unfold Pos.compare.
      destruct sx, sy; try discriminate;
        destruct (Z.compare_spec ex ey); try discriminate;
        destruct (Pos.compare_cont Eq mx my); try discriminate; auto. }
    destruct Hm as (Hm & -> & ->). apply Pos.compare_eq_iff in Hm.
    subst. reflexivity.
Qed.

Lemma astype_int_eqb (x y : float) :
  (x =? y)%float = true ->
  Pd.astype_int (x * 100000)%float = Pd.astype_int (y * 100000)%float.
Proof.
  intros H. destruct (float_eqb_cases x y H) as [->|[[-> | ->] [-> | ->]]];
    reflexivity.
Qed.

(** Rows whose rounded coordinates compare equal get the same key. *)
Lemma generate_key_row_same_cell (T : Type) (round_level : Z)
  (r1 r2 r1' r2' : point_row T) :
  (Np.round (latitude r1) round_level
   =? Np.round (latitude r2) round_level)%float = true ->
  (Np.round (longitude r1) round_level
   =? Np.round (longitude r2) round_level)%float = true ->
  generate_key_row round_level r1 = Ok r1' ->
  generate_key_row round_level r2 = Ok r2' ->
  geokey r1' = geokey r2'.
Proof.
  unfold generate_key_row, geokey_of. intros Hlat Hlong.
  rewrite (astype_int_eqb _ _ Hlat), (astype_int_eqb _ _ Hlong).
  destruct (Pd.astype_int _) as [ilat|e]; cbn [bind]; [|discriminate].
  destruct (Pd.astype_int _) as [ilong|e]; cbn [bind]; [|discriminate].
  intros [= <-] [= <-]. reflexivity.
Qed.

(** C8.  At [accuracy_m = 1] the two points of Cape Town at latitudes
    -33.92003 and -33.92002 (longitude 18.42) round to different
    latitudes, hence lie in different cells, and receive the same key. *)
Theorem generate_key_collision :
  exists lat_a lat_b long key,
    generate_key [(0, Examples.cape_a); (1, Examples.cape_b)] 1
    = Ok [ (0, mk_point_row lat_a long (Some key) None tt);
           (1, mk_point_row lat_b long (Some key) None tt) ]
    /\ lat_a = Np.round (latitude Examples.cape_a) 5
    /\ lat_b = Np.round (latitude Examples.cape_b) 5
    /\ (lat_a =? lat_b)%float = false
    /\ key = "-3392002;1842000"%string.
Proof.
  do 4 eexists. split; [vm_compute; reflexivity|].
  repeat split; vm_compute; reflexivity.
Qed.

(** ** [save_data] *)

Section SaveFacts.

Variable C : Type.

Lemma read_after_write (df : DataFrame C) (path : string)
  (ds : list string) (fs : list (string * DataFrame C)) :
  read_file (mk_filesystem ds ((path, df) :: fs)) path = Some df.
Proof.
  unfold read_file. cbn. rewrite String.eqb_refl. reflexivity.
Qed.

(** What [save_data] does once the columns are chosen: it creates the
    directory if it is missing, writes the frame and returns it. *)
Lemma save_data_writes (df out : DataFrame C) (filename directory : string)
  (columns : columns_arg) (fs : filesystem C) :
  (if truthy columns then
     if negb (isinstance_dict columns) then
       if negb (isinstance_list columns)
       then getitem df (names_of columns)
       else Ok df
     else
       df' <- getitem df (names_of columns) ;;
       Ok (rename df' (dict_items columns))
   else Ok df) = Ok out ->
  exists fs',
    save_data df filename directory columns fs = (fs', Ok out)
    /\ read_file fs' (os_path_join directory filename) = Some out
    /\ (forall d, In d (dirs fs) -> In d (dirs fs'))
    /\ In directory (dirs fs').
Proof.
  intros Hsel. unfold save_data, mbind, lift, mret, to_json. rewrite Hsel.
  unfold os_mkdir.
  destruct (existsb (String.eqb directory) (dirs fs)) eqn:E.
  - eexists. split; [reflexivity|]. split; [apply read_after_write|].
    cbn. split; [auto|].
    apply existsb_exists in E as (d & Hd & Heq).
    apply String.eqb_eq in Heq. subst. exact Hd.
  - eexists. split; [reflexivity|]. split; [apply read_after_write|].
    cbn. split; auto.
Qed.

Lemma filter_label_unique (df : DataFrame C) (k : string) :
  NoDup (map fst df) -> In k (map fst df) ->
  exists c,
    filter (fun col => String.eqb (fst col) k) df = [(k, c)]
    /\ column df k = Some c.
Proof.
  unfold column. induction df as [|[name c] df IH]; intros Hnd Hin;
    [destruct Hin|].
  cbn [map fst] in *. inversion Hnd as [|? ? Hnotin Hnd']; subst.
  cbn [filter find fst].
  destruct (String.eqb_spec name k) as [->|Hne].
  - exists c. split; [|reflexivity]. f_equal.
    assert (H : forall l : DataFrame C,
               ~ In k (map fst l) ->
               filter (fun col => String.eqb (fst col) k) l = []).
    { clear. induction l as [|[n' c'] l IHl]; intros H; cbn; [reflexivity|].
      destruct (String.eqb_spec n' k) as [->|_].
      - exfalso. apply H. left. reflexivity.
      - apply IHl. intros Hin. apply H. right. exact Hin. }
    apply H, Hnotin.
  - destruct Hin as [Heq|Hin]; [congruence|].
    apply IH; assumption.
Qed.

Lemma dict_get_item (items : list (string * string)) (k v : string) :
  NoDup (map fst items) -> In (k, v) items -> dict_get items k = v.
Proof.
  induction items as [|[k' v'] items IH]; intros Hnd Hin; [destruct Hin|].
  cbn [map fst] in Hnd. inversion Hnd as [|? ? Hnotin Hnd']; subst.
  cbn [dict_get]. destruct (String.eqb_spec k' k) as [->|Hne].
  - destruct Hin as [Heq|Hin]; [congruence|].
    exfalso. apply Hnotin. apply in_map_iff. exists (k, v). auto.
  - destruct Hin as [Heq|Hin]; [congruence|]. apply IH; assumption.
Qed.

(** Selecting the keys of a dict and renaming with it: one column per
    item, labelled by the item's value and filled from the column
    labelled by the item's key. *)
Lemma getitem_rename (df : DataFrame C) (mapper items : list (string * string)) :
  NoDup (map fst df) -> NoDup (map fst mapper) ->
  (forall kv, In kv items -> In kv mapper) ->
  (forall k, In k (map fst items) -> In k (map fst df)) ->
  exists sel,
    getitem df (map fst items) = Ok sel
    /\ Forall2 (fun kv col =>
                  fst col = snd kv /\ column df (fst kv) = Some (snd col))
         items (rename sel mapper).
Proof.
  intros Hdf Hmap. induction items as [|[k v] items IH]; intros Hsub Hin.
  - exists []. split; [reflexivity|constructor].
  - destruct IH as (sel & Hsel & HF).
    { intros kv H. apply Hsub. right. exact H. }
    { intros k' H. apply Hin. right. exact H. }
    destruct (filter_label_unique df k Hdf) as (c & Hc & Hcol).
    { apply Hin. left. reflexivity. }
    exists ((k, c) :: sel). cbn [map fst getitem]. rewrite Hc, Hsel.
    split; [reflexivity|].
    cbn [rename map fst snd]. constructor; [|exact HF].
    cbn. split; [|exact Hcol].
    apply dict_get_item; [exact Hmap|]. apply Hsub. left. reflexivity.
Qed.

(** A name that labels no column makes the selection fail. *)
Lemma getitem_missing (df : DataFrame C) (names : list string) (k : string) :
  In k names -> ~ In k (map fst df) ->
  exists missing,
    In missing names /\ ~ In missing (map fst df)
    /\ getitem df names = Err (KeyError missing).
Proof.
  induction names as [|name names IH]; intros Hin Hout; [destruct Hin|].
  cbn [getitem].
  destruct (filter (fun c => String.eqb (fst c) name) df) as [|c cs] eqn:E.
  - exists name. split; [left; reflexivity|]. split; [|reflexivity].
    intros Hname. apply in_map_iff in Hname as (col & Hcol & Hdf).
    assert (Hf : In col (filter (fun c => String.eqb (fst c) name) df)).
    { apply filter_In. split; [exact Hdf|]. apply String.eqb_eq. exact Hcol. }
    rewrite E in Hf. destruct Hf.
  - destruct Hin as [->|Hin].
    + exfalso. apply Hout.
      assert (Hf : In c (filter (fun c => String.eqb (fst c) k) df))
        by (rewrite E; left; reflexivity).
      apply filter_In in Hf as (Hdf & Heq). apply String.eqb_eq in Heq.
      apply in_map_iff. exists c. split; assumption.
    + destruct (IH Hin Hout) as (missing & Hm & Hnot & Hget).
      exists missing. split; [right; exact Hm|]. split; [exact Hnot|].
      rewrite Hget. reflexivity.
Qed.

End SaveFacts.





(** ** [process_data] *)

Section PipelineFacts.

Variables T G C : Type.
Variable contains : G -> float * float -> bool.
Variable np_min np_max : float * float -> float.
Variable true_divide : Z -> Z -> float.
Variable np_arange : float -> float -> float -> list float.
Variable no_attrs : T.
Variable rows_of : DataFrame C -> Frame (point_row T).
Variable columns_of : Frame (joined_row (point_row T) G) -> DataFrame C.
Variable drop_columns : DataFrame C -> list string -> DataFrame C.
Variable drop_duplicates : DataFrame C -> DataFrame C.
Variable fillna_from : DataFrame C -> string -> string -> DataFrame C.
Variable dropna : DataFrame C -> DataFrame C.
Variable rows_where_eq : DataFrame C -> string -> string -> DataFrame C.
Variable load_raw_data : result (Frame G * DataFrame C * DataFrame C).

Lemma getattr_generate_grid (st : Main.run_state C) :
  Main.gh_getattr C "generate_grid" st = (st, Ok tt).
Proof. reflexivity. Qed.

Lemma getattr_check_grid (st : Main.run_state C) :
  Main.gh_getattr C "check_grid" st
  = (st, Err (AttributeError "module 'geohelpers' has no attribute 'check_grid'")).
Proof. reflexivity. Qed.

(** A run in one equation: the loader, the grid, then the failed lookup
    of [check_grid]. *)
Lemma process_data_run (accuracy_m : Z) (verbose : bool)
  (st : Main.run_state C) :
  Main.process_data T G C contains np_min np_max true_divide np_arange
    no_attrs rows_of columns_of drop_columns drop_duplicates fillna_from
    dropna rows_where_eq load_raw_data accuracy_m verbose st
  = match load_raw_data with
    | Err e =>
        (Main.mk_run_state C (Main.calls C st ++ ["load_raw_data"%string])
           (Main.disk C st), Err e)
    | Ok _ =>
        (Main.mk_run_state C
           ((Main.calls C st ++ ["load_raw_data"%string])
            ++ ["generate_grid"%string]) (Main.disk C st),
         match generate_grid np_min np_max true_divide np_arange
                 ((-35)%float, (-22)%float) (16%float, 33%float)
                 (PyInt accuracy_m) verbose with
         | Ok _ =>
             Err (AttributeError
                    "module 'geohelpers' has no attribute 'check_grid'")
         | Err e => Err e
         end)
    end.
Proof.
  unfold Main.process_data.
  unfold mbind at 1. cbn [Main.enter].
  unfold mbind at 1. unfold lift at 1.
  destruct load_raw_data as [[[geometries geonames] postal_codes]|e];
    [|reflexivity].
  unfold mbind at 1. unfold Main.gh_call at 1. unfold mbind at 1.
  rewrite getattr_generate_grid.
  unfold mbind at 1. cbn [Main.enter Main.calls Main.disk].
  unfold lift at 1.
  destruct (generate_grid _ _ _ _ _ _ _ _) as [grid|e]; [|reflexivity].
  unfold mbind at 1. rewrite getattr_check_grid. reflexivity.
Qed.

End PipelineFacts.

(** C9 (amended).  No run of [process_data] returns, writes a file, or
    enters a function other than [load_raw_data] and [generate_grid].  When
    the input files load and [accuracy_m] is one of 1, 10, ..., 100000, the
    run raises AttributeError at [gh.check_grid(points_grid)], right after
    the grid has been generated; when [accuracy_m] is another integer it
    raises the ValueError of [generate_grid] instead. *)
Theorem process_data_stops (T G C : Type)
  (contains : G -> float * float -> bool)
  (np_min np_max : float * float -> float) (true_divide : Z -> Z -> float)
  (np_arange : float -> float -> float -> list float) (no_attrs : T)
  (rows_of : DataFrame C -> Frame (point_row T))
  (columns_of : Frame (joined_row (point_row T) G) -> DataFrame C)
  (drop_columns : DataFrame C -> list string -> DataFrame C)
  (drop_duplicates : DataFrame C -> DataFrame C)
  (fillna_from : DataFrame C -> string -> string -> DataFrame C)
  (dropna : DataFrame C -> DataFrame C)
  (rows_where_eq : DataFrame C -> string -> string -> DataFrame C)
  (load_raw_data : result (Frame G * DataFrame C * DataFrame C))
  (accuracy_m : Z) (verbose : bool) (st : Main.run_state C) :
  let run :=
    Main.process_data T G C contains np_min np_max true_divide np_arange
      no_attrs rows_of columns_of drop_columns drop_duplicates fillna_from
      dropna rows_where_eq load_raw_data accuracy_m verbose st in
  (exists e, snd run = Err e)
  /\ Main.disk C (fst run) = Main.disk C st
  /\ (forall name,
        In name (Main.calls C (fst run)) ->
        In name (Main.calls C st)
        \/ name = "load_raw_data"%string \/ name = "generate_grid"%string)
  /\ (forall raw,
        load_raw_data = Ok raw ->
        In accuracy_m [1; 10; 100; 1000; 10000; 100000] ->
        run
        = (Main.mk_run_state C
             (Main.calls C st ++ ["load_raw_data"; "generate_grid"]%string)
             (Main.disk C st),
           Err (AttributeError
                  "module 'geohelpers' has no attribute 'check_grid'")))
  /\ (forall raw,
        load_raw_data = Ok raw ->
        ~ In accuracy_m [1; 10; 100; 1000; 10000; 100000] ->
        snd run
        = Err (ValueError
                 "accuracy_m must be one of these values: (1,10,100,1000,10000,100000)")).
Proof.
  intros run. subst run. rewrite process_data_run.
  split; [|split; [|split; [|split]]].
  - destruct load_raw_data as [raw|e]; cbn [snd]; [|eexists; reflexivity].
    destruct (generate_grid _ _ _ _ _ _ _ _); eexists; reflexivity.
  - destruct load_raw_data; reflexivity.
  - intros name. destruct load_raw_data; cbn [fst Main.calls];
      rewrite ?in_app_iff; cbn [In]; intuition (subst; auto).
  - intros raw -> Hacc.
    destruct (generate_grid_accepts float np_min np_max true_divide np_arange
                ((-35)%float, (-22)%float) (16%float, 33%float) verbose
                accuracy_m Hacc) as (grid & -> & _).
    rewrite <- app_assoc. reflexivity.
  - intros raw -> Hacc. cbn [snd].
    rewrite generate_grid_rejects by exact Hacc. reflexivity.
Qed.

Lemma process_data_stops_witness :
  In 1000 [1; 10; 100; 1000; 10000; 100000]
  /\ Examples.example_run 1000 true
     = (Main.mk_run_state (list Z) ["load_raw_data"; "generate_grid"]%string
          Examples.empty_disk,
        Err (AttributeError "module 'geohelpers' has no attribute 'check_grid'")).
Proof.
  assert (Hin : In 1000 [1; 10; 100; 1000; 10000; 100000]) by (cbn; tauto).
  split; [exact Hin|].
  destruct (process_data_stops unit unit (list Z) Examples.nothing_contains
              Examples.float_min Examples.float_max Examples.float_div
              Examples.float_arange tt Examples.no_rows Examples.no_columns
              Examples.same_frame1 Examples.same_frame Examples.same_frame2
              Examples.same_frame Examples.same_frame2 Examples.empty_inputs
              1000 true Examples.fresh_run) as (_ & _ & _ & H & _).
  exact (H _ eq_refl Hin).
Defined.

(** C9, as stated, fails: with [accuracy_m = 5] the run stops earlier, in
    [generate_grid], with a ValueError and not with an AttributeError. *)
Lemma process_data_attribute_error_counterexample :
  Examples.example_run 5 false
  = (Main.mk_run_state (list Z) ["load_raw_data"; "generate_grid"]%string
       Examples.empty_disk,
     Err (ValueError
            "accuracy_m must be one of these values: (1,10,100,1000,10000,100000)"))
  /\ forall msg, snd (Examples.example_run 5 false) <> Err (AttributeError msg).
Proof.
  split; [vm_compute; reflexivity|].
  intros msg. vm_compute. discriminate.
Qed.

(* ===================================================================== *)
(** * Further properties of the helpers *)
(* ===================================================================== *)

(** ** Chunks for any chunk size *)

Lemma insert_unique_sorted (k : Z) (ks : list Z) :
  StronglySorted Z.lt ks -> StronglySorted Z.lt (Pd.insert_unique k ks).
Proof.
  induction 1 as [|x xs Hxs IH Hall]; cbn.
  - repeat constructor.
  - destruct (Z.ltb_spec k x).
    + constructor; [constructor; assumption|].
      constructor; [assumption|].
      eapply Forall_impl; [|exact Hall]. cbn. lia.
    + destruct (Z.eqb_spec k x); [constructor; assumption|].
      constructor; [exact IH|].
      apply Forall_forall. intros y Hy. apply In_insert_unique in Hy.
      destruct Hy as [->|Hy]; [lia|].
      rewrite Forall_forall in Hall. apply Hall, Hy.
Qed.

Lemma sort_unique_sorted (ks : list Z) :
  StronglySorted Z.lt (Pd.sort_unique ks).
Proof.
  induction ks as [|k ks IH]; cbn; [constructor|].
  apply insert_unique_sorted, IH.
Qed.

Lemma sort_unique_NoDup (ks : list Z) : NoDup (Pd.sort_unique ks).
Proof.
  induction (sort_unique_sorted ks) as [|x xs _ IH Hall]; constructor;
    [|exact IH].
  intros Hin. rewrite Forall_forall in Hall. specialize (Hall x Hin). lia.
Qed.

Section GroupsPermutation.

Variable R : Type.

Lemma keyed_groups_absent (k0 : Z) (r0 : R) (l : list (Z * R)) (ks : list Z) :
  ~ In k0 ks ->
  map (fun k => filter (fun kr => fst kr =? k) ((k0, r0) :: l)) ks
  = map (fun k => filter (fun kr => fst kr =? k) l) ks.
Proof.
  intros Hout. apply map_ext_in. intros k Hk. cbn.
  destruct (Z.eqb_spec k0 k) as [->|_]; [contradiction|reflexivity].
Qed.

Lemma keyed_groups_cons (k0 : Z) (r0 : R) (l : list (Z * R)) (ks : list Z) :
  NoDup ks -> In k0 ks ->
  Permutation
    (concat (map (fun k => filter (fun kr => fst kr =? k) ((k0, r0) :: l)) ks))
    ((k0, r0) :: concat (map (fun k => filter (fun kr => fst kr =? k) l) ks)).
Proof.
  induction 1 as [|k ks Hk Hnd IH]; intros Hin; [destruct Hin|].
  cbn [map concat].
  replace (filter (fun kr : Z * R => fst kr =? k) ((k0, r0) :: l))
    with (if k0 =? k
          then (k0, r0) :: filter (fun kr : Z * R => fst kr =? k) l
          else filter (fun kr : Z * R => fst kr =? k) l) by reflexivity.
  destruct (Z.eqb_spec k0 k) as [->|Hne].
  - rewrite keyed_groups_absent by exact Hk. reflexivity.
  - destruct Hin as [Heq|Hin]; [congruence|].
    rewrite (IH Hin). symmetry. apply Permutation_middle.
Qed.

Lemma keyed_groups_perm (l : list (Z * R)) (ks : list Z) :
  NoDup ks -> (forall kr, In kr l -> In (fst kr) ks) ->
  Permutation
    (concat (map (fun k => filter (fun kr => fst kr =? k) l) ks)) l.
Proof.
  intros Hnd. induction l as [|[k0 r0] l IH]; intros Hks.
  - clear. induction ks as [|k ks IHk]; cbn; [constructor|exact IHk].
  - rewrite keyed_groups_cons.
    + constructor. apply IH. intros kr Hkr. apply Hks. right. exact Hkr.
    + exact Hnd.
    + apply (Hks (k0, r0)). left. reflexivity.
Qed.

(** The groups of a frame, concatenated, hold the rows of the frame. *)
Lemma groups_perm (df : list R) (keys : list Z) :
  length keys = length df ->
  Permutation (concat (map snd (Pd.groupby df keys))) df.
Proof.
  intros Hlen. rewrite groupby_group_rows. unfold Pd.group_rows.
  rewrite <- map_map, <- concat_map.
  rewrite keyed_groups_perm.
  - clear - Hlen. revert df Hlen.
    induction keys as [|k keys IH]; intros [|r df] Hlen; cbn in *;
      try discriminate; [constructor|].
    constructor. apply IH. lia.
  - apply sort_unique_NoDup.
  - intros [k r] Hin. apply In_sort_unique. cbn.
    apply in_combine_l in Hin. exact Hin.
Qed.

End GroupsPermutation.

(** The chunks hold exactly the rows of the frame, each once, for every
    chunk size: absent, zero, positive or negative. *)
Lemma chunker_perm (R : Type) (df : Frame R) (chunksize : option Z) :
  Permutation (concat (_chunker df chunksize)) df.
Proof.
  unfold _chunker. destruct chunksize as [c|].
  - destruct (Z.eqb_spec c 0) as [_|_].
    + cbn. rewrite app_nil_r. reflexivity.
    + apply groups_perm. rewrite length_map, length_seq. reflexivity.
  - cbn. rewrite app_nil_r. reflexivity.
Qed.

(** With a negative chunk size the groups come in reverse: the last rows
    first. *)
Lemma chunker_negative_order :
  _chunker (Pd.DataFrame_of_rows [10; 11; 12; 13; 14]%nat) (Some (-2))
  = [ [(3, 13%nat); (4, 14%nat)]; [(1, 11%nat); (2, 12%nat)];
      [(0, 10%nat)] ].
Proof. reflexivity. Qed.

Lemma labels_DataFrame_of_rows {R : Type} (rows : list R) :
  map fst (Pd.DataFrame_of_rows rows) = range (length rows).
Proof.
  unfold Pd.DataFrame_of_rows, range. generalize 0%nat as a.
  induction rows as [|r rows IH]; intros a; cbn; [reflexivity|].
  rewrite IH. reflexivity.
Qed.

Lemma length_DataFrame_of_rows {R : Type} (rows : list R) :
  length (Pd.DataFrame_of_rows rows) = length rows.
Proof.
  rewrite <- (length_map snd), rows_DataFrame_of_rows. reflexivity.
Qed.

Section LocateAnyChunk.

Variables P G : Type.
Variable within : P -> G -> bool.

(** What [locate_points] returns, when it returns: the rows of the direct
    join, each as often, under the labels 0, 1, ... *)
Lemma locate_points_ok_perm (points : Frame P) (geometries : Frame G)
  (chunksize : pyval) (verbose : bool) (ret : Frame (joined_row P G)) :
  locate_points within points geometries chunksize verbose = Ok ret ->
  Permutation (map snd ret) (map snd (do_join within points geometries))
  /\ map fst ret = range (length ret).
Proof.
  rewrite locate_points_unfold.
  destruct (_check_chunksize chunksize (Z.of_nat (length points))) as [c|e];
    [|discriminate].
  cbn [bind]. unfold Pd.concat.
  pose proof (chunker_perm P points (Some c)) as Hperm.
  destruct (map _ (_chunker points (Some c))) as [|j js] eqn:E;
    [discriminate|].
  rewrite <- E. cbn [bind]. intros [= <-]. split.
  - rewrite rows_reset_index, do_join_concat.
    apply Permutation_map. unfold do_join.
    apply Permutation_flat_map, Hperm.
  - unfold Pd.reset_index.
    rewrite labels_DataFrame_of_rows, length_DataFrame_of_rows. reflexivity.
Qed.

Lemma do_join_length (points : Frame P) (geometries : Frame G) :
  length (do_join within points geometries)
  = list_sum
      (map (fun ip =>
              length (filter (fun jg => within (snd ip) (snd jg)) geometries))
         points).
Proof.
  unfold do_join, list_sum, joined_row, Frame in *.
  induction points as [|ip points IH]; [reflexivity|].
  cbn [flat_map map fold_right].
  rewrite length_app, length_map, IH. reflexivity.
Qed.

Lemma filter_none_existsb {X : Type} (f : X -> bool) (l : list X) :
  existsb f l = negb (Nat.eqb (length (filter f l)) 0).
Proof.
  induction l as [|x l IH]; cbn; [reflexivity|].
  destruct (f x); cbn; [reflexivity|exact IH].
Qed.

Lemma length_filter_split {X : Type} (f : X -> bool) (l : list X) :
  (length (filter f l) + length (filter (fun x => negb (f x)) l))%nat
  = length l.
Proof.
  induction l as [|x l IH]; cbn; [reflexivity|].
  destruct (f x); cbn; lia.
Qed.

Lemma count_at_most_one {X : Type} (cnt : X -> nat) (l : list X) :
  (forall x, In x l -> (cnt x <= 1)%nat) ->
  list_sum (map cnt l)
  = length (filter (fun x => negb (Nat.eqb (cnt x) 0)) l).
Proof.
  unfold list_sum. induction l as [|x l IH]; intros H; cbn; [reflexivity|].
  rewrite IH by (intros y Hy; apply H; right; exact Hy).
  pose proof (H x (or_introl eq_refl)) as Hx.
  destruct (cnt x) as [|[|m]]; cbn; lia.
Qed.

End LocateAnyChunk.

(** X1.  Whatever integer chunk size is given (zero and negative ones
    included) or none, on a frame with at least one point [locate_points]
    returns, and it returns the rows of the direct join of all the points,
    each as often, possibly in another order, under the labels 0, 1, ... *)
Theorem locate_points_any_chunksize (P G : Type) (within : P -> G -> bool)
  (points : Frame P) (geometries : Frame G) (chunksize : pyval) (c : Z)
  (verbose : bool) :
  points <> [] ->
  _check_chunksize chunksize (Z.of_nat (length points)) = Ok c ->
  exists ret,
    locate_points within points geometries chunksize verbose = Ok ret
    /\ Permutation (map snd ret) (map snd (do_join within points geometries))
    /\ map fst ret = range (length ret).
Proof.
  intros Hne Hc.
  destruct (locate_points_returns P G within points geometries chunksize
              verbose c Hc Hne) as (ret & Hret).
  exists ret. split; [exact Hret|].
  eapply locate_points_ok_perm, Hret.
Qed.

Lemma locate_points_any_chunksize_witness :
  exists ret,
    locate_points Examples.in_interval Examples.line_points
      Examples.intervals (PyInt (-3)) false = Ok ret
    /\ Permutation (map snd ret)
         (map snd (do_join Examples.in_interval Examples.line_points
                     Examples.intervals))
    /\ map snd ret
       <> map snd (do_join Examples.in_interval Examples.line_points
                     Examples.intervals).
Proof.
  destruct (locate_points_any_chunksize Z (Z * Z) Examples.in_interval
              Examples.line_points Examples.intervals (PyInt (-3)) (-3) false)
    as (ret & Hret & Hperm & _).
  - discriminate.
  - reflexivity.
  - exists ret. split; [exact Hret|]. split; [exact Hperm|].
    vm_compute in Hret. injection Hret as <-. vm_compute. discriminate.
Defined.

(** X2.  The number of rows [locate_points] returns is the sum, over the
    points, of the number of polygons that contain the point: a point inside
    two polygons is returned twice.  When no point lies in more than one
    polygon, that number is the number of points inside some polygon, and
    the number of points minus the number of returned rows (the figure the
    verbose report prints) is the number of points inside no polygon. *)
Theorem locate_points_row_count (P G : Type) (within : P -> G -> bool)
  (points : Frame P) (geometries : Frame G) (chunksize : pyval)
  (verbose : bool) (ret : Frame (joined_row P G)) :
  locate_points within points geometries chunksize verbose = Ok ret ->
  length ret
  = list_sum
      (map (fun ip =>
              length (filter (fun jg => within (snd ip) (snd jg)) geometries))
         points)
  /\ ((forall ip,
         In ip points ->
         (length (filter (fun jg => within (snd ip) (snd jg)) geometries)
          <= 1)%nat) ->
      length ret
      = length
          (filter (fun ip => existsb (fun jg => within (snd ip) (snd jg))
                               geometries) points)
      /\ (length points - length ret)%nat
         = length
             (filter (fun ip =>
                        negb (existsb (fun jg => within (snd ip) (snd jg))
                                geometries)) points)).
Proof.
  intros Hret.
  destruct (locate_points_ok_perm P G within points geometries chunksize
              verbose ret Hret) as (Hperm & _).
  apply Permutation_length in Hperm. rewrite !length_map in Hperm.
  rewrite do_join_length in Hperm.
  split; [exact Hperm|]. intros Hone.
  assert (Hlen : length ret
                 = length
                     (filter (fun ip =>
                                existsb (fun jg => within (snd ip) (snd jg))
                                  geometries) points)).
  { rewrite Hperm, count_at_most_one by exact Hone.
    f_equal. apply filter_ext. intros ip.
    symmetry. apply filter_none_existsb. }
  split; [exact Hlen|].
  rewrite Hlen.
  pose proof (length_filter_split
                (fun ip => existsb (fun jg => within (snd ip) (snd jg))
                             geometries) points).
  lia.
Qed.

Lemma locate_points_row_count_witness :
  exists ret,
    locate_points Examples.in_interval Examples.line_points
      MoreExamples.disjoint_intervals PyNone true = Ok ret
    /\ length Examples.line_points = 4%nat
    /\ length ret = 3%nat
    /\ (length Examples.line_points - length ret)%nat
       = length
           (filter (fun ip =>
                      negb (existsb
                              (fun jg => Examples.in_interval (snd ip) (snd jg))
                              MoreExamples.disjoint_intervals))
              Examples.line_points).
Proof.
  destruct (locate_points_returns Z (Z * Z) Examples.in_interval
              Examples.line_points MoreExamples.disjoint_intervals PyNone
              true 5000)
    as (ret & Hret); [reflexivity|discriminate|].
  exists ret. split; [exact Hret|]. split; [reflexivity|].
  destruct (locate_points_row_count Z (Z * Z) Examples.in_interval
              Examples.line_points MoreExamples.disjoint_intervals PyNone
              true ret Hret)
    as (Hsum & Hone).
  split; [rewrite Hsum; reflexivity|].
  apply Hone. intros ip Hin. vm_compute in Hin.
  destruct Hin as [<-|[<-|[<-|[<-|[]]]]]; vm_compute; lia.
Defined.

(** With overlapping polygons the point 5 is returned twice: four rows for
    four points, although the point 20 lies in no polygon. *)
Example locate_points_overlap :
  option_map (@length _)
    (match locate_points Examples.in_interval Examples.line_points
             Examples.intervals PyNone true with
     | Ok ret => Some ret
     | Err _ => None
     end) = Some 4%nat.
Proof. reflexivity. Qed.

(** ** [generate_points_from_coordinates] *)

Lemma mapM_inv {A B : Type} (f : A -> result B) (l : list A) (ys : list B) :
  mapM f l = Ok ys -> Forall2 (fun x y => f x = Ok y) l ys.
Proof.
  revert ys. induction l as [|x l IH]; intros ys H; cbn in H.
  - injection H as <-. constructor.
  - destruct (f x) as [y|e] eqn:Hx; cbn in H; [|discriminate].
    destruct (mapM f l) as [ys'|e]; cbn in H; [|discriminate].
    injection H as <-. constructor; [exact Hx|apply IH; reflexivity].
Qed.

Lemma Forall2_In_r {A B : Type} (Q : A -> B -> Prop) (l : list A)
  (ys : list B) (y : B) :
  Forall2 Q l ys -> In y ys -> exists x, In x l /\ Q x y.
Proof.
  induction 1 as [|x y' l ys HQ _ IH]; intros Hin; [destruct Hin|].
  destruct Hin as [->|Hin].
  - exists x. split; [left; reflexivity|exact HQ].
  - destruct (IH Hin) as (x' & Hx' & HQ'). exists x'. split; [right|]; assumption.
Qed.

Lemma Forall2_In_l {A B : Type} (Q : A -> B -> Prop) (l : list A)
  (ys : list B) (x : A) :
  Forall2 Q l ys -> In x l -> exists y, In y ys /\ Q x y.
Proof.
  induction 1 as [|x' y l ys HQ _ IH]; intros Hin; [destruct Hin|].
  destruct Hin as [->|Hin].
  - exists y. split; [left; reflexivity|exact HQ].
  - destruct (IH Hin) as (y' & Hy' & HQ'). exists y'. split; [right|]; assumption.
Qed.

Section PointsFromCoordinates.

Variable T : Type.

Lemma points_from_xy_concat (chunks : list (Frame (point_row T))) :
  concat (map points_from_xy chunks) = points_from_xy (concat chunks).
Proof.
  unfold points_from_xy. rewrite concat_map. reflexivity.
Qed.

(** The frame [generate_points_from_coordinates] returns, when it returns,
    holds the rows of the input, each with its point geometry. *)
Lemma points_from_coordinates_ok (df out : Frame (point_row T))
  (chunksize : pyval) :
  generate_points_from_coordinates df chunksize = Ok out ->
  Permutation out (points_from_xy df).
Proof.
  unfold generate_points_from_coordinates.
  destruct (_check_chunksize chunksize (Z.of_nat (length df))) as [c|e];
    [|discriminate].
  cbn [bind]. unfold Pd.concat.
  pose proof (chunker_perm (point_row T) df (Some c)) as Hperm.
  destruct (map points_from_xy (_chunker df (Some c))) as [|j js] eqn:E;
    [discriminate|].
  rewrite <- E. intros [= <-]. rewrite points_from_xy_concat.
  unfold points_from_xy. apply Permutation_map, Hperm.
Qed.

Lemma points_from_coordinates_returns (df : Frame (point_row T))
  (chunksize : pyval) (c : Z) :
  _check_chunksize chunksize (Z.of_nat (length df)) = Ok c ->
  df <> [] \/ c = 0 ->
  exists out, generate_points_from_coordinates df chunksize = Ok out.
Proof.
  intros Hc Hne. unfold generate_points_from_coordinates. rewrite Hc.
  cbn [bind].
  assert (Hch : _chunker df (Some c) <> []).
  { destruct Hne as [Hne| ->]; [apply chunker_nonempty, Hne|discriminate]. }
  destruct (_chunker df (Some c)) as [|ch chunks]; [congruence|].
  cbn. eexists. reflexivity.
Qed.

Lemma points_from_coordinates_in_order (df : Frame (point_row T))
  (chunksize : pyval) (c : Z) :
  _check_chunksize chunksize (Z.of_nat (length df)) = Ok c ->
  0 <= c -> df <> [] \/ c = 0 ->
  generate_points_from_coordinates df chunksize = Ok (points_from_xy df).
Proof.
  intros Hc Hpos Hne. unfold generate_points_from_coordinates. rewrite Hc.
  cbn [bind].
  assert (Hcat : concat (_chunker df (Some c)) = df).
  { destruct (Z.eq_dec c 0) as [->|Hnz].
    - cbn. apply app_nil_r.
    - apply chunker_concat. lia. }
  assert (Hch : _chunker df (Some c) <> []).
  { destruct Hne as [Hne| ->]; [apply chunker_nonempty, Hne|discriminate]. }
  rewrite concat_ok.
  - rewrite points_from_xy_concat, Hcat. reflexivity.
  - destruct (_chunker df (Some c)); [congruence|discriminate].
Qed.

End PointsFromCoordinates.

(** X3.  When the chunk size is positive and the frame has at least one row
    (or the chunk size is zero), [generate_points_from_coordinates] returns
    the rows of the frame in their order, whatever the chunk size: every row
    keeps its label and its cells and receives the point geometry
    (x, y) = (longitude, latitude). *)
Theorem points_from_coordinates_rows (T : Type) (df : Frame (point_row T))
  (chunksize : pyval) (c : Z) :
  _check_chunksize chunksize (Z.of_nat (length df)) = Ok c ->
  0 <= c ->
  df <> [] \/ c = 0 ->
  generate_points_from_coordinates df chunksize
  = Ok (map (fun ir =>
               (fst ir,
                mk_point_row (latitude (snd ir)) (longitude (snd ir))
                  (geokey (snd ir))
                  (Some (longitude (snd ir), latitude (snd ir)))
                  (attrs (snd ir))))
          df).
Proof. apply points_from_coordinates_in_order. Qed.

Lemma points_from_coordinates_rows_witness :
  generate_points_from_coordinates MoreExamples.cape_points (PyInt 1)
  = generate_points_from_coordinates MoreExamples.cape_points PyNone
  /\ exists a b,
       generate_points_from_coordinates MoreExamples.cape_points (PyInt 1)
       = Ok [(0, a); (1, b)]
       /\ geometry a = Some (longitude Examples.cape_a, latitude Examples.cape_a).
Proof.
  rewrite (points_from_coordinates_rows unit MoreExamples.cape_points
             (PyInt 1) 1);
    [|reflexivity|lia|left; discriminate].
  rewrite (points_from_coordinates_rows unit MoreExamples.cape_points
             PyNone 5000);
    [|reflexivity|lia|left; discriminate].
  split; [reflexivity|]. do 2 eexists. split; reflexivity.
Defined.

(** ** [process_dataframe] *)

Section ProcessFacts.

Variables T G : Type.
Variable contains : G -> float * float -> bool.

Lemma generate_key_inv (df keyed : Frame (point_row T)) (accuracy_m : Z) :
  generate_key df accuracy_m = Ok keyed ->
  exists level,
    Np.int_5_minus_log10 accuracy_m = Ok level
    /\ Forall2 (fun ir ir' =>
                  fst ir' = fst ir
                  /\ generate_key_row level (snd ir) = Ok (snd ir'))
         df keyed.
Proof.
  unfold generate_key.
  destruct (Np.int_5_minus_log10 accuracy_m) as [level|e]; [|discriminate].
  cbn [bind]. intros H. exists level. split; [reflexivity|].
  apply mapM_inv in H.
  eapply Forall2_impl; [|exact H]. intros [i r] [i' r'] Hrow.
  cbn [fst snd] in *.
  destruct (generate_key_row level r) as [r''|e]; cbn [bind] in Hrow;
    [|discriminate].
  injection Hrow as <- <-. split; reflexivity.
Qed.

Lemma generate_key_row_inv (level : Z) (r r' : point_row T) :
  generate_key_row level r = Ok r' ->
  exists key,
    geokey_of (Np.round (latitude r) level) (Np.round (longitude r) level)
    = Ok key
    /\ r' = mk_point_row (Np.round (latitude r) level)
              (Np.round (longitude r) level) (Some key) (geometry r)
              (attrs r).
Proof.
  unfold generate_key_row.
  destruct (geokey_of _ _) as [key|e]; cbn [bind]; [|discriminate].
  intros [= <-]. exists key. split; reflexivity.
Qed.

(** [process_dataframe] in one equation, once the chunk size is known. *)
Lemma process_dataframe_unfold (df : Frame (point_row T))
  (geometries : Frame G) (accuracy_m : Z) (chunksize : pyval) (c : Z)
  (verbose : bool) :
  _check_chunksize chunksize (Z.of_nat (length df)) = Ok c ->
  process_dataframe contains df geometries accuracy_m chunksize verbose
  = (keyed <- generate_key df accuracy_m ;;
     pts <- generate_points_from_coordinates keyed (PyInt c) ;;
     locate_points (row_within T G contains) pts geometries (PyInt c)
       verbose).
Proof. intros Hc. unfold process_dataframe. rewrite Hc. reflexivity. Qed.

Lemma process_dataframe_ok_rows (df : Frame (point_row T))
  (geometries : Frame G) (accuracy_m : Z) (chunksize : pyval)
  (verbose : bool) (ret : Frame (joined_row (point_row T) G)) :
  process_dataframe contains df geometries accuracy_m chunksize verbose
  = Ok ret ->
  exists level,
    Np.int_5_minus_log10 accuracy_m = Ok level
    /\ forall row jg,
         In (row, jg) (map snd ret)
         <-> exists r key,
               In r (map snd df)
               /\ geokey_of (Np.round (latitude r) level)
                    (Np.round (longitude r) level) = Ok key
               /\ row = mk_point_row (Np.round (latitude r) level)
                          (Np.round (longitude r) level) (Some key)
                          (Some (Np.round (longitude r) level,
                                 Np.round (latitude r) level))
                          (attrs r)
               /\ In jg geometries
               /\ contains (snd jg)
                    (Np.round (longitude r) level,
                     Np.round (latitude r) level) = true.
Proof.
  intros Hret.
  destruct (_check_chunksize chunksize (Z.of_nat (length df))) as [c|e] eqn:Hc.
  2:{ unfold process_dataframe in Hret. rewrite Hc in Hret. discriminate. }
  rewrite (process_dataframe_unfold _ _ _ _ c _ Hc) in Hret.
  destruct (generate_key df accuracy_m) as [keyed|e] eqn:Hkey;
    [|discriminate].
  cbn [bind] in Hret.
  destruct (generate_points_from_coordinates keyed (PyInt c)) as [pts|e]
    eqn:Hpts; [|discriminate].
  cbn [bind] in Hret.
  destruct (generate_key_inv df keyed accuracy_m Hkey) as (level & Hlevel & HF).
  exists level. split; [exact Hlevel|].
  pose proof (points_from_coordinates_ok T keyed pts (PyInt c) Hpts) as Hperm.
  pose proof (locate_points_rows (point_row T) G (row_within T G contains)
                pts geometries (PyInt c) verbose ret Hret) as Hrows.
  intros row jg. rewrite Hrows. split.
  - intros (Hrow & Hjg & Hin).
    apply in_map_iff in Hrow as ((i & row') & Heq & Hrow). cbn in Heq.
    subst row'.
    apply (Permutation_in _ Hperm) in Hrow.
    unfold points_from_xy in Hrow.
    apply in_map_iff in Hrow as ((i' & k) & Heq & Hk).
    cbn in Heq. injection Heq as -> <-.
    destruct (Forall2_In_r _ _ _ _ HF Hk) as ((i0 & r) & Hr & Hlabel & Hgen).
    cbn in Hlabel, Hgen.
    destruct (generate_key_row_inv level r k Hgen) as (key & Hgeo & Hkeq).
    rewrite Hkeq in *. cbn [latitude longitude geokey attrs] in *.
    exists r, key. split; [apply in_map_iff; exists (i0, r); auto|].
    split; [exact Hgeo|]. split; [reflexivity|]. split; [exact Hjg|].
    exact Hin.
  - intros (r & key & Hr & Hgeo & -> & Hjg & Hin).
    split; [|split; [exact Hjg|exact Hin]].
    apply in_map_iff in Hr as ((i & r') & Heq & Hr). cbn in Heq. subst r'.
    destruct (Forall2_In_l _ _ _ _ HF Hr) as ((i' & k) & Hk & Hlabel & Hgen).
    cbn in Hlabel, Hgen.
    destruct (generate_key_row_inv level r k Hgen) as (key' & Hgeo' & Hkeq).
    assert (key' = key) by congruence. subst key'. rewrite Hkeq in *.
    apply in_map_iff. eexists (i', _). split; [reflexivity|].
    apply (Permutation_in _ (Permutation_sym Hperm)).
    unfold points_from_xy. apply in_map_iff.
    eexists (i', _). split; [|exact Hk]. reflexivity.
Qed.

Lemma generate_key_length (df keyed : Frame (point_row T)) (accuracy_m : Z) :
  generate_key df accuracy_m = Ok keyed -> length keyed = length df.
Proof.
  intros H. destruct (generate_key_inv df keyed accuracy_m H) as (level & _ & HF).
  symmetry. eapply Forall2_length, HF.
Qed.

Lemma process_dataframe_total (df keyed : Frame (point_row T))
  (geometries : Frame G) (accuracy_m : Z) (chunksize : pyval) (c : Z)
  (verbose : bool) :
  df <> [] ->
  _check_chunksize chunksize (Z.of_nat (length df)) = Ok c ->
  generate_key df accuracy_m = Ok keyed ->
  exists ret,
    process_dataframe contains df geometries accuracy_m chunksize verbose
    = Ok ret.
Proof.
  intros Hne Hc Hkey.
  rewrite (process_dataframe_unfold _ _ _ _ c _ Hc), Hkey. cbn [bind].
  pose proof (generate_key_length df keyed accuracy_m Hkey) as Hlen.
  assert (Hkne : keyed <> []).
  { intros ->. destruct df; [congruence|discriminate]. }
  destruct (points_from_coordinates_returns T keyed (PyInt c) c eq_refl
              (or_introl Hkne)) as (pts & Hpts).
  rewrite Hpts. cbn [bind].
  apply (locate_points_returns _ _ _ _ _ _ _ c); [reflexivity|].
  intros ->.
  pose proof (points_from_coordinates_ok T keyed [] (PyInt c) Hpts) as Hperm.
  apply Permutation_nil in Hperm. unfold points_from_xy in Hperm.
  apply map_eq_nil in Hperm. contradiction.
Qed.

Lemma process_dataframe_empty (geometries : Frame G) (accuracy_m level : Z)
  (chunksize : pyval) (c : Z) (verbose : bool) :
  Np.int_5_minus_log10 accuracy_m = Ok level ->
  _check_chunksize chunksize 0 = Ok c ->
  process_dataframe contains ([] : Frame (point_row T)) geometries
    accuracy_m chunksize verbose
  = if c =? 0 then Ok []
    else Err (ValueError "No objects to concatenate").
Proof.
  intros Hlevel Hc.
  rewrite (process_dataframe_unfold [] _ _ _ c _ Hc).
  unfold generate_key. rewrite Hlevel. cbn [bind mapM].
  unfold generate_points_from_coordinates. cbn [_check_chunksize py_int bind].
  unfold _chunker. cbn [length].
  destruct (Z.eqb_spec c 0) as [->|Hnz]; [reflexivity|].
  reflexivity.
Qed.

End ProcessFacts.

(** X4.  [process_dataframe] returns whenever the frame has at least one
    row, the chunk size is accepted and the keys can be generated.  Whenever
    it returns, its rows are exactly the pairs of a point of the input, with
    its coordinates ROUNDED to the level of the accuracy, its key and its
    point geometry (x, y) = (rounded longitude, rounded latitude), and of a
    polygon that contains that rounded point: containment is tested on the
    rounded coordinates, not on the original ones. *)
Theorem process_dataframe_rows (T G : Type)
  (contains : G -> float * float -> bool) (df : Frame (point_row T))
  (geometries : Frame G) (accuracy_m : Z) (chunksize : pyval)
  (verbose : bool) :
  (forall c keyed,
      df <> [] ->
      _check_chunksize chunksize (Z.of_nat (length df)) = Ok c ->
      generate_key df accuracy_m = Ok keyed ->
      exists ret,
        process_dataframe contains df geometries accuracy_m chunksize verbose
        = Ok ret)
  /\ (forall ret,
        process_dataframe contains df geometries accuracy_m chunksize verbose
        = Ok ret ->
        exists level,
          Np.int_5_minus_log10 accuracy_m = Ok level
          /\ forall row jg,
               In (row, jg) (map snd ret)
               <-> exists r key,
                     In r (map snd df)
                     /\ geokey_of (Np.round (latitude r) level)
                          (Np.round (longitude r) level) = Ok key
                     /\ row = mk_point_row (Np.round (latitude r) level)
                                (Np.round (longitude r) level) (Some key)
                                (Some (Np.round (longitude r) level,
                                       Np.round (latitude r) level))
                                (attrs r)
                     /\ In jg geometries
                     /\ contains (snd jg)
                          (Np.round (longitude r) level,
                           Np.round (latitude r) level) = true).
Proof.
  split.
  - intros c keyed Hne Hc Hkey.
    eapply process_dataframe_total; eassumption.
  - intros ret Hret. eapply process_dataframe_ok_rows, Hret.
Qed.

Lemma process_dataframe_rows_witness :
  exists ret row,
    process_dataframe MoreExamples.in_box MoreExamples.cape_points
      MoreExamples.cape_box 1000 PyNone false = Ok ret
    /\ In (row, (0, ((18%float, 19%float), ((-34)%float, (-33)%float))))
         (map snd ret)
    /\ latitude row = Np.round (latitude Examples.cape_a) 2
    /\ geokey row = Some "-3392000;1842000"%string.
Proof.
  destruct (process_dataframe_rows unit _ MoreExamples.in_box
              MoreExamples.cape_points MoreExamples.cape_box 1000 PyNone
              false) as (Htotal & Hrows).
  destruct (generate_key MoreExamples.cape_points 1000) as [keyed|e] eqn:Hkey;
    [|vm_compute in Hkey; discriminate].
  destruct (Htotal 5000 keyed) as (ret & Hret);
    [discriminate|reflexivity|reflexivity|].
  destruct (Hrows ret Hret) as (level & Hlevel & Hiff).
  vm_compute in Hlevel. injection Hlevel as <-.
  exists ret. eexists. split; [exact Hret|]. split.
  - apply Hiff. exists Examples.cape_a, "-3392000;1842000"%string.
    split; [left; reflexivity|]. split; [vm_compute; reflexivity|].
    split; [reflexivity|]. split; [left; reflexivity|].
    vm_compute. reflexivity.
  - split; reflexivity.
Defined.

(** X5.  On a frame with no row, [process_dataframe] returns the empty
    frame when the chunk size is 0 and raises the ValueError of [pd.concat]
    for every other chunk size, the default included. *)
Theorem process_dataframe_no_rows (T G : Type)
  (contains : G -> float * float -> bool) (geometries : Frame G)
  (accuracy_m level : Z) (chunksize : pyval) (c : Z) (verbose : bool) :
  Np.int_5_minus_log10 accuracy_m = Ok level ->
  _check_chunksize chunksize 0 = Ok c ->
  process_dataframe contains ([] : Frame (point_row T)) geometries accuracy_m
    chunksize verbose
  = if c =? 0 then Ok []
    else Err (ValueError "No objects to concatenate").
Proof. apply process_dataframe_empty. Qed.

Lemma process_dataframe_no_rows_witness :
  process_dataframe MoreExamples.in_box ([] : Frame (point_row unit))
    MoreExamples.cape_box 1000 PyNone false
  = Err (ValueError "No objects to concatenate")
  /\ process_dataframe MoreExamples.in_box ([] : Frame (point_row unit))
       MoreExamples.cape_box 1000 (PyInt 0) false
     = Ok [].
Proof.
  split.
  - apply (process_dataframe_no_rows unit _ MoreExamples.in_box
             MoreExamples.cape_box 1000 2 PyNone 5000 false); reflexivity.
  - apply (process_dataframe_no_rows unit _ MoreExamples.in_box
             MoreExamples.cape_box 1000 2 (PyInt 0) 0 false); reflexivity.
Defined.

(** ** The geokey: format and failures *)

Lemma string_of_uint_chars (d : Decimal.uint) (c : ascii) :
  In c (list_ascii_of_string (NilEmpty.string_of_uint d)) -> c <> ";"%char.
Proof.
  induction d; cbn; intros H; try (destruct H as [<-|H];
    [discriminate|apply IHd, H]).
  destruct H.
Qed.

Lemma py_str_chars (z : Z) (c : ascii) :
  In c (list_ascii_of_string (py_str z)) -> c <> ";"%char.
Proof.
  unfold py_str, NilZero.string_of_int, NilZero.string_of_uint.
  destruct (Z.to_int z) as [d|d].
  - destruct d; try apply string_of_uint_chars.
    cbn. intros [<-|[]]. discriminate.
  - cbn [list_ascii_of_string In]. intros [<-|H]; [discriminate|].
    destruct d; try (revert H; apply string_of_uint_chars).
    cbn in H. destruct H as [<-|[]]. discriminate.
Qed.

Lemma py_str_inj (a b : Z) : py_str a = py_str b -> a = b.
Proof.
  unfold py_str. intros H.
  assert (Hnn : forall z, Z.to_int z <> Decimal.Pos Decimal.Nil
                          /\ Z.to_int z <> Decimal.Neg Decimal.Nil).
  { intros [|p|p]; cbn; split; try discriminate;
      intros [= Hp]; revert Hp; apply DecimalPos.Unsigned.to_uint_nonnil. }
  apply (f_equal NilZero.int_of_string) in H.
  rewrite !NilZero.isi in H by apply Hnn.
  injection H as H. apply (f_equal Z.of_int) in H.
  rewrite !DecimalZ.of_to in H. exact H.
Qed.

Lemma split_at_semicolon (s1 t1 s2 t2 : string) :
  (forall c, In c (list_ascii_of_string s1) -> c <> ";"%char) ->
  (forall c, In c (list_ascii_of_string t1) -> c <> ";"%char) ->
  (s1 ++ ";" ++ s2)%string = (t1 ++ ";" ++ t2)%string ->
  s1 = t1 /\ s2 = t2.
Proof.
  revert t1. induction s1 as [|c s1 IH]; intros [|d t1] Hs Ht H; cbn in H.
  - injection H as H. split; [reflexivity|exact H].
  - injection H as Hc _. exfalso. apply (Ht d); [left; reflexivity|].
    symmetry. exact Hc.
  - injection H as Hc _. exfalso. apply (Hs c); [left; reflexivity|exact Hc].
  - injection H as -> H.
    destruct (IH t1) as (-> & ->).
    + intros x Hx. apply Hs. right. exact Hx.
    + intros x Hx. apply Ht. right. exact Hx.
    + exact H.
    + split; reflexivity.
Qed.

Lemma geokey_of_inv (lat long : float) (key : string) :
  geokey_of lat long = Ok key ->
  exists ilat ilong,
    Pd.astype_int (lat * 100000)%float = Ok ilat
    /\ Pd.astype_int (long * 100000)%float = Ok ilong
    /\ key = (py_str ilat ++ ";" ++ py_str ilong)%string.
Proof.
  unfold geokey_of.
  destruct (Pd.astype_int (lat * 100000)) as [ilat|e]; cbn [bind];
    [|discriminate].
  destruct (Pd.astype_int (long * 100000)) as [ilong|e]; cbn [bind];
    [|discriminate].
  intros [= <-]. exists ilat, ilong. auto.
Qed.

(** X6.  The key determines the two integers it was built from: two pairs
    of coordinates receive the same key only if their products by 100000
    have the same integer parts, for the latitude and for the longitude. *)
Theorem geokey_of_injective (lat1 long1 lat2 long2 : float) (key : string) :
  geokey_of lat1 long1 = Ok key ->
  geokey_of lat2 long2 = Ok key ->
  Pd.astype_int (lat1 * 100000)%float = Pd.astype_int (lat2 * 100000)%float
  /\ Pd.astype_int (long1 * 100000)%float
     = Pd.astype_int (long2 * 100000)%float.
Proof.
  intros H1 H2.
  destruct (geokey_of_inv _ _ _ H1) as (a1 & b1 & Ha1 & Hb1 & Hk1).
  destruct (geokey_of_inv _ _ _ H2) as (a2 & b2 & Ha2 & Hb2 & Hk2).
  rewrite Hk1 in Hk2.
  apply split_at_semicolon in Hk2 as (Ha & Hb); try apply py_str_chars.
  apply py_str_inj in Ha, Hb. subst. rewrite Ha1, Ha2, Hb1, Hb2.
  split; reflexivity.
Qed.

Lemma geokey_of_injective_witness :
  Pd.astype_int (Np.round (latitude Examples.cape_a) 5 * 100000)%float
  = Pd.astype_int (Np.round (latitude Examples.cape_b) 5 * 100000)%float
  /\ Pd.astype_int (Np.round (latitude Examples.cape_a) 5 * 100000)%float
     = Ok (-3392002).
Proof.
  split; [|reflexivity].
  apply (geokey_of_injective
           (Np.round (latitude Examples.cape_a) 5)
           (Np.round (longitude Examples.cape_a) 5)
           (Np.round (latitude Examples.cape_b) 5)
           (Np.round (longitude Examples.cape_b) 5)
           "-3392002;1842000"); reflexivity.
Defined.

(** *** NaN coordinates *)

Lemma is_nan_eq (x : float) : PrimFloat.is_nan x = true -> x = PrimFloat.nan.
Proof.
  unfold PrimFloat.is_nan. rewrite FloatAxioms.eqb_spec.
  intros H. apply Prim2SF_inj.
  change (Prim2SF PrimFloat.nan) with S754_nan.
  unfold SFeqb, SFcompare in H.
  destruct (Prim2SF x) as [s|s| |s m e]; try discriminate;
    try (destruct s; discriminate); [reflexivity|].
  exfalso. rewrite Z.compare_refl in H.
  assert (Hm : Pos.compare_cont Eq m m = Eq) by apply Pos.compare_refl.
  rewrite Hm in H. destruct s; discriminate.
Qed.

Lemma mul_nan_l (y : float) : (PrimFloat.nan * y)%float = PrimFloat.nan.
Proof.
  apply Prim2SF_inj. rewrite mul_spec.
  change (Prim2SF PrimFloat.nan) with S754_nan. reflexivity.
Qed.

Lemma div_nan_l (y : float) : (PrimFloat.nan / y)%float = PrimFloat.nan.
Proof.
  apply Prim2SF_inj. rewrite div_spec.
  change (Prim2SF PrimFloat.nan) with S754_nan. reflexivity.
Qed.

Lemma round_nan (decimals : Z) : Np.round PrimFloat.nan decimals = PrimFloat.nan.
Proof.
  unfold Np.round.
  destruct (decimals =? 0); [reflexivity|].
  destruct (0 <? decimals).
  - rewrite mul_nan_l. change (Np.rint PrimFloat.nan) with PrimFloat.nan.
    apply div_nan_l.
  - rewrite div_nan_l. change (Np.rint PrimFloat.nan) with PrimFloat.nan.
    apply mul_nan_l.
Qed.

Lemma geokey_of_error (lat long : float) (e : exn) :
  geokey_of lat long = Err e ->
  e = ValueError "Cannot convert non-finite values (NA or inf) to integer".
Proof.
  unfold geokey_of, Pd.astype_int.
  destruct (float_trunc (lat * 100000)); cbn [bind]; [|congruence].
  destruct (float_trunc (long * 100000)); cbn [bind]; [discriminate|congruence].
Qed.

Lemma geokey_of_nan (lat long : float) :
  lat = PrimFloat.nan \/ long = PrimFloat.nan ->
  geokey_of lat long
  = Err (ValueError "Cannot convert non-finite values (NA or inf) to integer").
Proof.
  intros H. destruct (geokey_of lat long) as [key|e] eqn:E.
  - exfalso. apply geokey_of_inv in E as (a & b & Ha & Hb & _).
    destruct H as [-> | ->]; rewrite mul_nan_l in *; discriminate.
  - f_equal. eapply geokey_of_error, E.
Qed.

Lemma mapM_error {A B : Type} (f : A -> result B) (l : list A) (e : exn) :
  mapM f l = Err e -> exists x, In x l /\ f x = Err e.
Proof.
  induction l as [|x l IH]; cbn; [discriminate|].
  destruct (f x) as [y|e'] eqn:Hx; cbn.
  - destruct (mapM f l) as [ys|e'']; cbn; [discriminate|].
    intros [= <-]. destruct (IH eq_refl) as (x' & Hin & Hx').
    exists x'. split; [right|]; assumption.
  - intros [= <-]. exists x. split; [left; reflexivity|exact Hx].
Qed.

Lemma mapM_some_error {A B : Type} (f : A -> result B) (l : list A) (x : A)
  (e : exn) :
  In x l -> f x = Err e -> exists e', mapM f l = Err e'.
Proof.
  induction l as [|y l IH]; intros Hin Hx; [destruct Hin|]. cbn.
  destruct (f y) as [b|e'] eqn:Hy; cbn; [|eexists; reflexivity].
  destruct Hin as [->|Hin]; [congruence|].
  destruct (IH Hin Hx) as (e' & ->). cbn. eexists. reflexivity.
Qed.

Section GenerateKeyErrors.

Variable T : Type.

Lemma generate_key_row_error (level : Z) (r : point_row T) (e : exn) :
  generate_key_row level r = Err e ->
  e = ValueError "Cannot convert non-finite values (NA or inf) to integer".
Proof.
  unfold generate_key_row.
  destruct (geokey_of _ _) as [key|e'] eqn:E; cbn [bind]; [discriminate|].
  intros [= <-]. eapply geokey_of_error, E.
Qed.

Lemma generate_key_only_error (df : Frame (point_row T))
  (accuracy_m level : Z) (e : exn) :
  Np.int_5_minus_log10 accuracy_m = Ok level ->
  generate_key df accuracy_m = Err e ->
  e = ValueError "Cannot convert non-finite values (NA or inf) to integer".
Proof.
  intros Hlevel. unfold generate_key. rewrite Hlevel. cbn [bind].
  intros H. apply mapM_error in H as ((i & r) & _ & H). cbn [fst snd] in H.
  destruct (generate_key_row level r) as [r'|e'] eqn:E; cbn [bind] in H;
    [discriminate|].
  injection H as <-. eapply generate_key_row_error, E.
Qed.

Lemma generate_key_nan (df : Frame (point_row T)) (accuracy_m level : Z)
  (ir : Z * point_row T) :
  Np.int_5_minus_log10 accuracy_m = Ok level ->
  In ir df ->
  PrimFloat.is_nan (latitude (snd ir)) = true
  \/ PrimFloat.is_nan (longitude (snd ir)) = true ->
  generate_key df accuracy_m
  = Err (ValueError "Cannot convert non-finite values (NA or inf) to integer").
Proof.
  intros Hlevel Hin Hnan.
  assert (Hrow : generate_key_row level (snd ir)
                 = Err (ValueError
                          "Cannot convert non-finite values (NA or inf) to integer")).
  { unfold generate_key_row. rewrite geokey_of_nan; [reflexivity|].
    destruct Hnan as [H|H]; apply is_nan_eq in H; rewrite H, round_nan; auto. }
  destruct (mapM_some_error
              (fun ir => r <- generate_key_row level (snd ir) ;; Ok (fst ir, r))
              df ir
              (ValueError
                 "Cannot convert non-finite values (NA or inf) to integer")
              Hin) as (e' & He').
  { rewrite Hrow. reflexivity. }
  assert (Hgen : generate_key df accuracy_m = Err e').
  { unfold generate_key. rewrite Hlevel. exact He'. }
  rewrite Hgen. f_equal. eapply generate_key_only_error; eassumption.
Qed.

End GenerateKeyErrors.

(** X7.  For an accuracy whose rounding level is defined, the only
    exception [generate_key] can raise is the ValueError of the cast to
    integers, and it raises it as soon as one latitude or longitude of the
    frame is NaN: a row with a missing coordinate makes the whole call
    fail. *)
Theorem generate_key_missing_coordinate (T : Type) (df : Frame (point_row T))
  (accuracy_m level : Z) :
  Np.int_5_minus_log10 accuracy_m = Ok level ->
  (forall e,
      generate_key df accuracy_m = Err e ->
      e = ValueError "Cannot convert non-finite values (NA or inf) to integer")
  /\ (forall ir,
        In ir df ->
        PrimFloat.is_nan (latitude (snd ir)) = true
        \/ PrimFloat.is_nan (longitude (snd ir)) = true ->
        generate_key df accuracy_m
        = Err (ValueError
                 "Cannot convert non-finite values (NA or inf) to integer")).
Proof.
  intros Hlevel. split.
  - intros e. apply generate_key_only_error with (level := level), Hlevel.
  - intros ir. apply generate_key_nan with (level := level), Hlevel.
Qed.

Lemma generate_key_missing_coordinate_witness :
  generate_key
    [ (0, Examples.cape_a);
      (1, mk_point_row PrimFloat.nan 18%float None None tt) ] 1000
  = Err (ValueError "Cannot convert non-finite values (NA or inf) to integer").
Proof.
  destruct (generate_key_missing_coordinate unit
              [ (0, Examples.cape_a);
                (1, mk_point_row PrimFloat.nan 18%float None None tt) ]
              1000 2 eq_refl) as (_ & Hnan).
  apply (Hnan (1, mk_point_row PrimFloat.nan 18%float None None tt)).
  - right. left. reflexivity.
  - left. reflexivity.
Defined.

(** *** Accuracies that are not powers of ten *)

Lemma ilog10_spec (fuel : nat) (a : Z) :
  1 <= a < 10 ^ Z.of_nat fuel ->
  0 <= Np.ilog10 fuel a
  /\ 10 ^ Np.ilog10 fuel a <= a < 10 ^ (Np.ilog10 fuel a + 1).
Proof.
  revert a. induction fuel as [|fuel IH]; intros a Ha.
  - cbn in Ha. lia.
  - cbn [Np.ilog10]. destruct (Z.ltb_spec a 10) as [Hlt|Hge].
    + cbn. lia.
    + assert (Hdiv : 1 <= a / 10 < 10 ^ Z.of_nat fuel).
      { split.
        - apply Z.div_le_lower_bound; lia.
        - apply Z.div_lt_upper_bound; [lia|].
          rewrite Nat2Z.inj_succ, Z.pow_succ_r in Ha by lia. lia. }
      destruct (IH (a / 10) Hdiv) as (Hnn & Hlo & Hhi).
      set (L := Np.ilog10 fuel (a / 10)) in *.
      split; [lia|].
      rewrite (Z.add_comm 1 L), !Z.pow_add_r, Z.pow_1_r in * by lia.
      pose proof (Z.div_mod a 10 ltac:(lia)) as Hdm.
      pose proof (Z.mod_pos_bound a 10 ltac:(lia)) as Hmod.
      nia.
Qed.

Lemma ilog10_enough_fuel (a : Z) :
  1 <= a -> a < 10 ^ Z.of_nat (Z.to_nat (Z.log2 a) + 1).
Proof.
  intros Ha.
  pose proof (Z.log2_nonneg a) as Hnn.
  replace (Z.of_nat (Z.to_nat (Z.log2 a) + 1)) with (Z.log2 a + 1) by lia.
  pose proof (Z.log2_spec a ltac:(lia)) as (_ & Hhi).
  replace (Z.succ (Z.log2 a)) with (Z.log2 a + 1) in Hhi by lia.
  eapply Z.lt_le_trans; [exact Hhi|].
  apply Z.pow_le_mono_l. lia.
Qed.

(** Between two powers of ten, up to 100000, the rounding level is that of
    the larger one. *)
Lemma int_5_minus_log10_decade (a k : Z) :
  1 <= k <= 5 -> 10 ^ (k - 1) < a <= 10 ^ k ->
  Np.int_5_minus_log10 a = Ok (5 - k).
Proof.
  intros Hk Ha.
  assert (Hpos : 0 < 10 ^ (k - 1)) by (apply Z.pow_pos_nonneg; lia).
  unfold Np.int_5_minus_log10.
  destruct (Z.ltb_spec a 0); [lia|].
  destruct (Z.eqb_spec a 0); [lia|].
  destruct (ilog10_spec (Z.to_nat (Z.log2 a) + 1) a) as (Hnn & Hlo & Hhi).
  { split; [lia|apply ilog10_enough_fuel; lia]. }
  set (L := Np.ilog10 (Z.to_nat (Z.log2 a) + 1) a) in *.
  assert (HLk : L <= k).
  { apply (Z.pow_le_mono_r_iff 10); lia. }
  assert (HkL : k - 1 < L + 1).
  { apply (Z.pow_lt_mono_r_iff 10); lia. }
  f_equal. destruct (Z.eqb_spec a (10 ^ L)) as [Heq|Hne].
  - assert (L = k).
    { destruct (Z.eq_dec L k); [assumption|].
      assert (HL : L = k - 1) by lia. rewrite HL in Heq. lia. }
    lia.
  - assert (L = k - 1).
    { destruct (Z.eq_dec L k) as [HL|]; [|lia].
      rewrite HL in Hne, Hlo. lia. }
    destruct (Z.leb_spec L 4); lia.
Qed.

(** X8.  [generate_key] does not validate the accuracy: for every frame, an
    accuracy strictly between two powers of ten (up to 100000) is treated
    exactly as the larger power of ten (500 as 1000, 2 as 10), while the
    accuracy 0 raises OverflowError and a negative accuracy raises
    ValueError whatever the frame. *)
Theorem generate_key_unvalidated_accuracy (T : Type)
  (df : Frame (point_row T)) (a k : Z) :
  (1 <= k <= 5 -> 10 ^ (k - 1) < a <= 10 ^ k ->
   generate_key df a = generate_key df (10 ^ k))
  /\ generate_key df 0
     = Err (OverflowError "cannot convert float infinity to integer")
  /\ (a < 0 ->
      generate_key df a
      = Err (ValueError "cannot convert float NaN to integer")).
Proof.
  split; [|split].
  - intros Hk Ha. unfold generate_key.
    rewrite (int_5_minus_log10_decade a k Hk Ha).
    rewrite (int_5_minus_log10_decade (10 ^ k) k Hk); [reflexivity|].
    split; [|lia]. apply Z.pow_lt_mono_r; lia.
  - reflexivity.
  - intros Ha. unfold generate_key, Np.int_5_minus_log10.
    destruct (Z.ltb_spec a 0); [reflexivity|lia].
Qed.

Lemma generate_key_unvalidated_accuracy_witness :
  generate_key MoreExamples.cape_points 500
  = generate_key MoreExamples.cape_points 1000
  /\ generate_key MoreExamples.cape_points (-3)
     = Err (ValueError "cannot convert float NaN to integer").
Proof.
  destruct (generate_key_unvalidated_accuracy unit MoreExamples.cape_points
              500 3) as (Hdecade & _).
  destruct (generate_key_unvalidated_accuracy unit MoreExamples.cape_points
              (-3) 1) as (_ & _ & Hneg).
  split; [apply Hdecade; cbn; lia|apply Hneg; lia].
Defined.

(** ** [save_data]: the other kinds of [columns], and the file system *)

Section SaveMore.

Variable C : Type.

Lemma getitem_columns (df : DataFrame C) (names : list string) :
  NoDup (map fst df) ->
  (forall k, In k names -> In k (map fst df)) ->
  exists sel,
    getitem df names = Ok sel
    /\ Forall2 (fun name col =>
                  fst col = name /\ column df name = Some (snd col))
         names sel.
Proof.
  intros Hdf. induction names as [|k names IH]; intros Hin.
  - exists []. split; [reflexivity|constructor].
  - destruct IH as (sel & Hsel & HF).
    { intros k' H. apply Hin. right. exact H. }
    destruct (filter_label_unique C df k Hdf) as (c & Hc & Hcol).
    { apply Hin. left. reflexivity. }
    exists ((k, c) :: sel). cbn [getitem]. rewrite Hc, Hsel.
    split; [reflexivity|]. constructor; [|exact HF]. cbn. auto.
Qed.

Lemma getitem_error (df : DataFrame C) (names : list string) (e : exn) :
  getitem df names = Err e ->
  exists k, e = KeyError k /\ In k names /\ ~ In k (map fst df).
Proof.
  induction names as [|name names IH]; cbn [getitem]; [discriminate|].
  destruct (filter (fun c => String.eqb (fst c) name) df) as [|c cs] eqn:E.
  - intros [= <-]. exists name. split; [reflexivity|].
    split; [left; reflexivity|].
    intros Hname. apply in_map_iff in Hname as (col & Hcol & Hdf).
    assert (Hf : In col (filter (fun c => String.eqb (fst c) name) df)).
    { apply filter_In. split; [exact Hdf|]. apply String.eqb_eq. exact Hcol. }
    rewrite E in Hf. destruct Hf.
  - destruct (getitem df names) as [rest|e']; cbn [bind]; [discriminate|].
    intros [= <-]. destruct (IH eq_refl) as (k & Hk & Hin & Hout).
    exists k. split; [exact Hk|]. split; [right; exact Hin|exact Hout].
Qed.

(** The chosen columns: the first step of [save_data]. *)
Lemma save_data_selection (df : DataFrame C) (filename directory : string)
  (columns : columns_arg) (fs : filesystem C) :
  let chosen :=
    if truthy columns then
      if negb (isinstance_dict columns) then
        if negb (isinstance_list columns)
        then getitem df (names_of columns)
        else Ok df
      else
        df' <- getitem df (names_of columns) ;;
        Ok (rename df' (dict_items columns))
    else Ok df in
  match chosen with
  | Ok out =>
      exists fs',
        save_data df filename directory columns fs = (fs', Ok out)
        /\ read_file fs' (os_path_join directory filename) = Some out
        /\ (forall path,
              path <> os_path_join directory filename ->
              read_file fs' path = read_file fs path)
        /\ (forall d, In d (dirs fs') <-> d = directory \/ In d (dirs fs))
        /\ (In directory (dirs fs) -> dirs fs' = dirs fs)
  | Err e =>
      save_data df filename directory columns fs = (fs, Err e)
      /\ exists k,
           e = KeyError k /\ In k (names_of columns)
           /\ ~ In k (map fst df)
  end.
Proof.
  intros chosen. destruct chosen as [out|e] eqn:Hsel.
  - unfold save_data, mbind, lift, mret, to_json. subst chosen.
    rewrite Hsel. unfold os_mkdir.
    destruct (existsb (String.eqb directory) (dirs fs)) eqn:E.
    + eexists. split; [reflexivity|]. split; [apply read_after_write|].
      assert (Hd : In directory (dirs fs)).
      { apply existsb_exists in E as (d & Hd & Heq).
        apply String.eqb_eq in Heq. subst. exact Hd. }
      split; [|split].
      * intros path Hne. unfold read_file. cbn.
        destruct (String.eqb_spec (os_path_join directory filename) path);
          [congruence|reflexivity].
      * intros d. cbn. split; [auto|]. intros [->|H]; assumption.
      * reflexivity.
    + eexists. split; [reflexivity|]. split; [apply read_after_write|].
      split; [|split].
      * intros path Hne. unfold read_file. cbn.
        destruct (String.eqb_spec (os_path_join directory filename) path);
          [congruence|reflexivity].
      * intros d. cbn. split; intros [H|H]; auto.
      * intros Hd. exfalso.
        assert (Ht : existsb (String.eqb directory) (dirs fs) = true).
        { apply existsb_exists. exists directory. split; [exact Hd|].
          apply String.eqb_refl. }
        congruence.
  - subst chosen. split.
    + unfold save_data, mbind, lift. rewrite Hsel. reflexivity.
    + destruct (truthy columns); [|discriminate].
      destruct (isinstance_dict columns); cbn [negb] in Hsel.
      * destruct (getitem df (names_of columns)) as [sel|e'] eqn:Hg;
          cbn [bind] in Hsel; [discriminate|].
        injection Hsel as <-. eapply getitem_error, Hg.
      * destruct (isinstance_list columns); cbn [negb] in Hsel;
          [discriminate|].
        eapply getitem_error, Hsel.
Qed.

End SaveMore.




(** ** The grid: size, labels and depth of the recursion *)

Lemma long_then_lat_length {A : Type} (lats longs : list A) :
  length (Spec.long_then_lat lats longs) = (length longs * length lats)%nat.
Proof.
  unfold Spec.long_then_lat.
  induction longs as [|y longs IH]; [reflexivity|].
  cbn [flat_map length]. rewrite length_app, length_map, IH. lia.
Qed.

Section GridShape.

Variable A : Type.
Variable np_min np_max : A * A -> A.
Variable true_divide : Z -> Z -> A.
Variable np_arange : A -> A -> A -> list A.

Lemma generate_grid_shape (lats longs : A * A) (z : Z) (verbose : bool)
  (grid : Frame (A * A)) :
  generate_grid np_min np_max true_divide np_arange lats longs (PyInt z)
    verbose = Ok grid ->
  In z [1; 10; 100; 1000; 10000; 100000]
  /\ map fst grid = range (length grid)
  /\ length grid
     = Nat.mul
         (length (np_arange (np_min lats) (np_max lats)
                    (true_divide z 100000)))
         (length (np_arange (np_min longs) (np_max longs)
                    (true_divide z 100000))).
Proof.
  intros Hgrid.
  assert (Hz : In z [1; 10; 100; 1000; 10000; 100000]).
  { destruct (existsb (Z.eqb z) accuracy_values) eqn:E.
    - rewrite <- accuracy_values_eq. apply existsb_eqb_In, E.
    - unfold generate_grid in Hgrid. cbn [py_int bind] in Hgrid.
      rewrite E in Hgrid. discriminate. }
  split; [exact Hz|].
  destruct (generate_grid_accepts A np_min np_max true_divide np_arange
              lats longs verbose z Hz) as (grid' & Hgrid' & Hperm).
  rewrite Hgrid in Hgrid'. injection Hgrid' as <-.
  split.
  - unfold generate_grid in Hgrid. cbn [py_int bind] in Hgrid.
    rewrite <- accuracy_values_eq in Hz. apply existsb_eqb_In in Hz.
    rewrite Hz in Hgrid. cbn [negb try_except bind] in Hgrid.
    destruct (_generate_smaller_grid _ _ _ _) as [ret|e];
      cbn [bind] in Hgrid; [|discriminate].
    injection Hgrid as <-. unfold Pd.reset_index.
    rewrite labels_DataFrame_of_rows, length_DataFrame_of_rows. reflexivity.
  - apply Permutation_length in Hperm.
    rewrite length_map, cartesian_product_long_then_lat,
      long_then_lat_length in Hperm. lia.
Qed.

End GridShape.



Section GridDepth.

Variable A : Type.

Lemma chunk_small (m b : nat) :
  (1500 <= m)%nat -> (b <= m / (m / 100) + 1)%nat -> (b < 1500)%nat.
Proof.
  intros Hm Hb.
  assert (Hk : (15 <= m / 100)%nat).
  { apply Nat.div_le_lower_bound; lia. }
  pose proof (Nat.div_mod_eq m 100) as Hdm.
  pose proof (Nat.mod_upper_bound m 100 ltac:(lia)) as Hmod.
  assert (Hq : (m / (m / 100) < 107)%nat).
  { apply Nat.Div0.div_lt_upper_bound. lia. }
  lia.
Qed.

Lemma smaller_grid_fuel_S (fuel : nat) (lats longs : list A) (accuracy_m : Z)
  (verbose : bool) :
  _generate_smaller_grid_fuel (S fuel) lats longs accuracy_m verbose
  = if (1500 <=? Nat.max (length lats) (length longs))%nat then
      dfs <-
        (if (length longs <? length lats)%nat then
           chunks <- Np.array_split lats (length lats / 100)%nat ;;
           mapM (fun lat =>
                   _generate_smaller_grid_fuel fuel lat longs accuracy_m
                     verbose) chunks
         else
           chunks <- Np.array_split longs (length longs / 100)%nat ;;
           mapM (fun lon =>
                   _generate_smaller_grid_fuel fuel lats lon accuracy_m
                     verbose) chunks) ;;
      Pd.concat dfs
    else Ok (Pd.DataFrame_of_rows (cartesian_product lats longs)).
Proof. reflexivity. Qed.

(** Both axes short: one call. *)
Lemma smaller_grid_direct (fuel : nat) (lats longs : list A) (accuracy_m : Z)
  (verbose : bool) :
  (length lats < 1500)%nat -> (length longs < 1500)%nat ->
  _generate_smaller_grid_fuel (S fuel) lats longs accuracy_m verbose
  = Ok (Pd.DataFrame_of_rows (cartesian_product lats longs)).
Proof.
  intros Hlat Hlong. rewrite smaller_grid_fuel_S.
  destruct (Nat.leb_spec 1500 (Nat.max (length lats) (length longs)));
    [lia|reflexivity].
Qed.

(** One axis short: two nested calls. *)
Lemma smaller_grid_depth2 (f1 f2 : nat) (lats longs : list A)
  (accuracy_m : Z) (verbose : bool) :
  (length lats < 1500)%nat \/ (length longs < 1500)%nat ->
  _generate_smaller_grid_fuel (S (S f1)) lats longs accuracy_m verbose
  = _generate_smaller_grid_fuel (S (S f2)) lats longs accuracy_m verbose.
Proof.
  intros Hshort.
  rewrite (smaller_grid_fuel_S (S f1)), (smaller_grid_fuel_S (S f2)).
  destruct (Nat.leb_spec 1500 (Nat.max (length lats) (length longs)))
    as [Hbig|Hsmall]; [|reflexivity].
  destruct (Nat.ltb_spec (length longs) (length lats)) as [Hlat|Hlong].
  - assert (Hm : (1500 <= length lats)%nat) by lia.
    destruct (array_split_spec A lats (length lats / 100))
      as (chunks & Hsplit & _ & _ & Hbound).
    { apply Nat.div_str_pos. lia. }
    rewrite Hsplit. cbn [bind]. f_equal.
    apply mapM_ext_in. intros c Hc.
    rewrite Forall_forall in Hbound. specialize (Hbound c Hc).
    pose proof (chunk_small (length lats) (length c) Hm Hbound).
    rewrite !smaller_grid_direct by lia. reflexivity.
  - assert (Hm : (1500 <= length longs)%nat) by lia.
    destruct (array_split_spec A longs (length longs / 100))
      as (chunks & Hsplit & _ & _ & Hbound).
    { apply Nat.div_str_pos. lia. }
    rewrite Hsplit. cbn [bind]. f_equal.
    apply mapM_ext_in. intros c Hc.
    rewrite Forall_forall in Hbound. specialize (Hbound c Hc).
    pose proof (chunk_small (length longs) (length c) Hm Hbound).
    rewrite !smaller_grid_direct by lia. reflexivity.
Qed.

(** Any axes: three nested calls. *)
Lemma smaller_grid_depth3 (f1 f2 : nat) (lats longs : list A)
  (accuracy_m : Z) (verbose : bool) :
  _generate_smaller_grid_fuel (S (S (S f1))) lats longs accuracy_m verbose
  = _generate_smaller_grid_fuel (S (S (S f2))) lats longs accuracy_m verbose.
Proof.
  rewrite (smaller_grid_fuel_S (S (S f1))), (smaller_grid_fuel_S (S (S f2))).
  destruct (Nat.leb_spec 1500 (Nat.max (length lats) (length longs)))
    as [Hbig|Hsmall]; [|reflexivity].
  destruct (Nat.ltb_spec (length longs) (length lats)) as [Hlat|Hlong].
  - assert (Hm : (1500 <= length lats)%nat) by lia.
    destruct (array_split_spec A lats (length lats / 100))
      as (chunks & Hsplit & _ & _ & Hbound).
    { apply Nat.div_str_pos. lia. }
    rewrite Hsplit. cbn [bind]. f_equal.
    apply mapM_ext_in. intros c Hc.
    rewrite Forall_forall in Hbound. specialize (Hbound c Hc).
    pose proof (chunk_small (length lats) (length c) Hm Hbound).
    apply smaller_grid_depth2. left. lia.
  - assert (Hm : (1500 <= length longs)%nat) by lia.
    destruct (array_split_spec A longs (length longs / 100))
      as (chunks & Hsplit & _ & _ & Hbound).
    { apply Nat.div_str_pos. lia. }
    rewrite Hsplit. cbn [bind]. f_equal.
    apply mapM_ext_in. intros c Hc.
    rewrite Forall_forall in Hbound. specialize (Hbound c Hc).
    pose proof (chunk_small (length longs) (length c) Hm Hbound).
    apply smaller_grid_depth2. right. lia.
Qed.

Lemma smaller_grid_three_calls (lats longs : list A) (accuracy_m : Z)
  (verbose : bool) :
  _generate_smaller_grid lats longs accuracy_m verbose
  = _generate_smaller_grid_fuel 3 lats longs accuracy_m verbose.
Proof.
  unfold _generate_smaller_grid.
  destruct (length lats + length longs)%nat as [|[|n]] eqn:E.
  - rewrite !smaller_grid_direct by lia. reflexivity.
  - rewrite !smaller_grid_direct by lia. reflexivity.
  - apply smaller_grid_depth3.
Qed.

End GridDepth.

(** X12.  The recursion of [_generate_smaller_grid] is never more than
    three calls deep, whatever the lengths of the two axes: a split leaves
    chunks of fewer than 1500 elements, so each axis is split at most
    once. *)
Theorem smaller_grid_depth (A : Type) (lats longs : list A) (accuracy_m : Z)
  (verbose : bool) (fuel : nat) :
  _generate_smaller_grid_fuel (3 + fuel) lats longs accuracy_m verbose
  = _generate_smaller_grid lats longs accuracy_m verbose
  /\ exists grid,
       _generate_smaller_grid_fuel 3 lats longs accuracy_m verbose = Ok grid.
Proof.
  split.
  - rewrite smaller_grid_three_calls. apply smaller_grid_depth3.
  - rewrite <- smaller_grid_three_calls.
    destruct (smaller_grid_fuel_spec A (S (length lats + length longs)) lats
                longs accuracy_m verbose) as (grid & Hgrid & _); [lia|].
    exists grid. exact Hgrid.
Qed.

(** ** The number of chunks *)

Lemma contiguous_chunks_length {R : Type} (fuel c : nat) (df : list R) :
  (0 < c)%nat -> (length df <= fuel)%nat ->
  length (Spec.contiguous_chunks fuel c df) = ((length df + c - 1) / c)%nat.
Proof.
  intros Hc. revert df. induction fuel as [|fuel IH]; intros df Hlen.
  - destruct df; [|cbn in Hlen; lia]. cbn.
    symmetry. apply Nat.div_small. lia.
  - destruct df as [|r df'] eqn:Hdf.
    + cbn. symmetry. apply Nat.div_small. lia.
    + rewrite <- Hdf in *.
      assert (Hn : (1 <= length df)%nat) by (subst df; cbn; lia).
      rewrite contiguous_chunks_step by (subst df; discriminate).
      cbn [length]. rewrite IH by (rewrite length_skipn; lia).
      rewrite length_skipn.
      replace (length df + c - 1)%nat with ((length df - 1) + 1 * c)%nat by lia.
      rewrite Nat.div_add by lia.
      destruct (Nat.le_gt_cases c (length df)) as [Hge|Hlt].
      * replace (length df - c + c - 1)%nat with (length df - 1)%nat by lia.
        lia.
      * rewrite (Nat.div_small (length df - 1)) by lia.
        rewrite Nat.div_small by lia. reflexivity.
Qed.

Lemma chunker_count (R : Type) (df : Frame R) (c : Z) :
  0 < c ->
  Z.of_nat (length (_chunker df (Some c)))
  = (Z.of_nat (length df) + c - 1) / c.
Proof.
  intros Hc.
  rewrite (chunker_contiguous R c (length df)) by (lia || apply Nat.le_refl).
  unfold Frame in *.
  rewrite contiguous_chunks_length by lia.
  rewrite Nat2Z.inj_div. f_equal; lia.
Qed.

(** X13.  With a positive chunk size C a frame of N rows is cut into
    ceil(N / C) chunks; with the adaptive default of [_check_chunksize], a
    frame of at most 3,060,000 rows is cut into at most 51 chunks. *)
Theorem chunker_number_of_chunks (R : Type) (df : Frame R) (c : Z) :
  (0 < c ->
   Z.of_nat (length (_chunker df (Some c)))
   = (Z.of_nat (length df) + c - 1) / c)
  /\ (Z.of_nat (length df) <= 3060000 ->
      exists d,
        _check_chunksize PyNone (Z.of_nat (length df)) = Ok d
        /\ Z.of_nat (length (_chunker df (Some d))) <= 51).
Proof.
  split; [apply chunker_count|].
  intros Hn. eexists. split; [reflexivity|].
  set (N := Z.of_nat (length df)) in *.
  assert (HN : 0 <= N) by (unfold N; lia).
  pose proof (Z.div_mod N 50 ltac:(lia)) as Hdm.
  pose proof (Z.mod_pos_bound N 50 ltac:(lia)) as Hmod.
  set (q := N / 50) in *.
  assert (Hd : 0 < Z.min (Z.max q 5000) 60000) by lia.
  rewrite chunker_count by exact Hd. fold N.
  assert (Hlt : (N + Z.min (Z.max q 5000) 60000 - 1)
                  / Z.min (Z.max q 5000) 60000 < 52).
  { apply Z.div_lt_upper_bound; [exact Hd|]. lia. }
  lia.
Qed.

Lemma chunker_number_of_chunks_witness :
  length (_chunker Examples.line_points (Some 3)) = 2%nat
  /\ exists d,
       _check_chunksize PyNone (Z.of_nat (length Examples.line_points)) = Ok d
       /\ Z.of_nat (length (_chunker Examples.line_points (Some d))) <= 51.
Proof.
  destruct (chunker_number_of_chunks Z Examples.line_points 3)
    as (Hcount & Hdefault).
  split.
  - apply Nat2Z.inj. rewrite Hcount by lia. reflexivity.
  - apply Hdefault. cbn. lia.
Defined.

(** ** [extract_names_datasets] *)

Section ExtractNamesFacts.

Variable R : Type.
Variables feature_code feature_class : R -> option string.

Lemma rows_where_rows (lg : Frame R) (column : R -> option string)
  (value : string) :
  map snd (MainRows.rows_where R lg column value)
  = filter (fun r => MainRows.cell_eq (column r) value) (map snd lg).
Proof.
  unfold MainRows.rows_where. rewrite rows_reset_index.
  induction lg as [|[i r] lg IH]; cbn; [reflexivity|].
  destruct (MainRows.cell_eq (column r) value); cbn; rewrite IH; reflexivity.
Qed.

Lemma cell_eq_exclusive (cell : option string) (v w : string) :
  v <> w -> MainRows.cell_eq cell v = true -> MainRows.cell_eq cell w = false.
Proof.
  destruct cell as [s|]; cbn; [|reflexivity].
  intros Hne Hv. apply String.eqb_eq in Hv. subst s.
  apply String.eqb_neq. exact Hne.
Qed.

Lemma three_filters_length (v1 v2 v3 : string) (rows : list R) :
  v1 <> v2 -> v1 <> v3 -> v2 <> v3 ->
  (length (filter (fun r => MainRows.cell_eq (feature_code r) v1) rows)
   + length (filter (fun r => MainRows.cell_eq (feature_code r) v2) rows)
   + length (filter (fun r => MainRows.cell_eq (feature_code r) v3) rows)
   <= length rows)%nat.
Proof.
  intros H12 H13 H23. induction rows as [|r rows IH]; cbn; [lia|].
  destruct (MainRows.cell_eq (feature_code r) v1) eqn:E1.
  - rewrite (cell_eq_exclusive _ v1 v2 H12 E1),
      (cell_eq_exclusive _ v1 v3 H13 E1). cbn. lia.
  - destruct (MainRows.cell_eq (feature_code r) v2) eqn:E2.
    + rewrite (cell_eq_exclusive _ v2 v3 H23 E2). cbn. lia.
    + destruct (MainRows.cell_eq (feature_code r) v3); cbn; lia.
Qed.

End ExtractNamesFacts.

(** X14.  The four frames of [extract_names_datasets] are labelled 0, 1,
    ...; each holds, in their order, the rows of the input whose feature
    code is ADM1, ADM2, ADM3 (provinces, districts, towns) or whose feature
    class is P (suburbs).  No row belongs to two of the first three, whose
    sizes therefore sum to at most the size of the input, and a row with a
    missing code and a missing class belongs to none of the four. *)
Theorem extract_names_datasets_subsets (R : Type)
  (feature_code feature_class : R -> option string) (lg : Frame R) :
  let '(provinces, districts, towns, suburbs) :=
    MainRows.extract_names_datasets R feature_code feature_class lg in
  (map fst provinces = range (length provinces)
   /\ map fst districts = range (length districts)
   /\ map fst towns = range (length towns)
   /\ map fst suburbs = range (length suburbs))
  /\ (forall r,
        (In r (map snd provinces)
         <-> In r (map snd lg) /\ feature_code r = Some "ADM1"%string)
        /\ (In r (map snd districts)
            <-> In r (map snd lg) /\ feature_code r = Some "ADM2"%string)
        /\ (In r (map snd towns)
            <-> In r (map snd lg) /\ feature_code r = Some "ADM3"%string)
        /\ (In r (map snd suburbs)
            <-> In r (map snd lg) /\ feature_class r = Some "P"%string))
  /\ (length provinces + length districts + length towns <= length lg)%nat
  /\ (forall r,
        feature_code r = None -> feature_class r = None ->
        ~ In r (map snd provinces) /\ ~ In r (map snd districts)
        /\ ~ In r (map snd towns) /\ ~ In r (map snd suburbs)).
Proof.
  unfold MainRows.extract_names_datasets.
  assert (Hlabels : forall column value,
             map fst (MainRows.rows_where R lg column value)
             = range (length (MainRows.rows_where R lg column value))).
  { intros column value. unfold MainRows.rows_where, Pd.reset_index.
    rewrite labels_DataFrame_of_rows, length_DataFrame_of_rows. reflexivity. }
  assert (Hin : forall column value r,
             In r (map snd (MainRows.rows_where R lg column value))
             <-> In r (map snd lg) /\ column r = Some value).
  { intros column value r. rewrite rows_where_rows, filter_In.
    unfold MainRows.cell_eq. destruct (column r) as [s|].
    - rewrite String.eqb_eq. split; intros [H1 H2]; split; congruence.
    - split; intros [H1 H2]; discriminate. }
  split; [auto|]. split; [intros r; auto|]. split.
  - rewrite <- !(length_map snd), !rows_where_rows.
    apply three_filters_length; discriminate.
  - intros r Hcode Hclass. rewrite !Hin, Hcode, Hclass.
    repeat split; intros [_ H]; discriminate.
Qed.

Lemma extract_names_datasets_example :
  let '(provinces, districts, towns, suburbs) :=
    MainRows.extract_names_datasets PlaceExamples.place
      PlaceExamples.place_code PlaceExamples.place_class
      PlaceExamples.places in
  map (fun ir => fst (snd ir)) provinces = ["Western Cape"]%string
  /\ map (fun ir => fst (snd ir)) districts = ["City of Cape Town"]%string
  /\ towns = []
  /\ map (fun ir => fst (snd ir)) suburbs = ["Cape Town"]%string.
Proof. repeat split. Qed.

(** ** The chunk size does not show in the results *)

Lemma process_dataframe_chunked (T G : Type)
  (contains : G -> float * float -> bool) (df keyed : Frame (point_row T))
  (geometries : Frame G) (accuracy_m : Z) (chunksize : pyval) (c : Z)
  (verbose : bool) :
  df <> [] ->
  _check_chunksize chunksize (Z.of_nat (length df)) = Ok c ->
  0 < c ->
  generate_key df accuracy_m = Ok keyed ->
  process_dataframe contains df geometries accuracy_m chunksize verbose
  = Ok (Pd.reset_index
          (do_join (row_within T G contains) (points_from_xy keyed)
             geometries)).
Proof.
  intros Hne Hc Hpos Hkey.
  rewrite (process_dataframe_unfold T G contains df geometries accuracy_m
             chunksize c verbose Hc), Hkey.
  cbn [bind].
  pose proof (generate_key_length T df keyed accuracy_m Hkey) as Hlen.
  assert (Hkne : keyed <> []).
  { intros ->. destruct df; [congruence|discriminate]. }
  rewrite (points_from_coordinates_in_order T keyed (PyInt c) c eq_refl)
    by (lia || (left; exact Hkne)).
  cbn [bind]. apply locate_points_chunked; [exact Hpos|].
  unfold points_from_xy. intros H. apply map_eq_nil in H. contradiction.
Qed.


